(** * Uchet: a multi-user debt ledger (FastAPI + SQLAlchemy)

    A shallow embedding of [auth.py], [models.py] and [main.py].

    - Python exceptions are an explicit result type ([Return] / [Raise]).
    - The wall clock, the random bcrypt salt and the database are threaded
      explicitly through every handler.
    - The external libraries (itsdangerous, passlib/bcrypt) are modelled by
      their control flow; the cryptographic primitives and the encodings they
      call, and the summation of the store's engine, are the fields of the
      [Backend] class. *)

From Stdlib Require Import ZArith NArith List String Ascii Bool Lia.
From Stdlib Require Import Permutation Sorted DecimalString.
From Stdlib Require Import Floats.PrimFloat.
Import ListNotations.

Local Open Scope string_scope.
Local Open Scope Z_scope.

(** ** Python results *)

Inductive exn : Type :=
| BadSignature        (* itsdangerous.BadSignature *)
| BadTimeSignature    (* subclass of BadSignature *)
| SignatureExpired    (* subclass of BadTimeSignature *)
| BadPayload          (* subclass of BadData, NOT of BadSignature *)
| ValueError          (* from [datetime.fromtimestamp]; OverflowError or
                         OSError past the platform's [time_t] *)
| AttributeError
| UnknownHashError    (* passlib.exc.UnknownHashError *)
| MalformedHashError  (* passlib.exc.MalformedHashError and the other errors
                         of [bcrypt.from_string] *)
| MissingDigestError  (* passlib.exc.MissingDigestError *)
| PasswordSizeError   (* subclass of passlib.exc.PasswordValueError *)
| NullPasswordError   (* subclass of passlib.exc.PasswordValueError *)
| HTTPException (status_code : Z) (headers : list (string * string)).

Inductive result (A : Type) : Type :=
| Return (a : A)
| Raise (e : exn).
Arguments Return {A} a.
Arguments Raise {A} e.

Definition bind {A B : Type} (m : result A) (k : A -> result B) : result B :=
  match m with
  | Return a => k a
  | Raise e => Raise e
  end.

(** [isinstance(e, BadSignature)]: the class and its two subclasses. *)
Definition isinstance_BadSignature (e : exn) : bool :=
  match e with
  | BadSignature | BadTimeSignature | SignatureExpired => true
  | _ => false
  end.

Definition isinstance_SignatureExpired (e : exn) : bool :=
  match e with
  | SignatureExpired => true
  | _ => false
  end.

Definition isinstance_HTTPException (e : exn) : bool :=
  match e with
  | HTTPException _ _ => true
  | _ => false
  end.

(** ** Strings *)

Definition sep : ascii := "."%char.

(** [sep in s] *)
Fixpoint contains_sep (s : string) : bool :=
  match s with
  | EmptyString => false
  | String c s' => Ascii.eqb c sep || contains_sep s'
  end.

(** [s.rsplit(sep, 1)] when [sep in s]: the text before the last separator
    and the text after it. [None] when there is no separator. *)
Fixpoint rsplit (s : string) : option (string * string) :=
  match s with
  | EmptyString => None
  | String c s' =>
      match rsplit s' with
      | Some (a, b) => Some (String c a, b)
      | None => if Ascii.eqb c sep then Some (EmptyString, s') else None
      end
  end.

(** Python truthiness of a [str]. *)
Definition str_truthy (s : string) : bool :=
  match s with
  | EmptyString => false
  | _ => true
  end.

(** ** JSON payloads

    The value that [serializer.loads] hands back. A session payload is the
    object [{"user_id": n}]; objects are kept as their items with integer
    values, every other JSON value is [JOther]. *)

Inductive json : Type :=
| JObj (items : list (string * Z))
| JOther.

Fixpoint dict_get (d : list (string * Z)) (key : string) : option Z :=
  match d with
  | [] => None
  | (k, v) :: d' => if String.eqb k key then Some v else dict_get d' key
  end.

(** [data.get(key)]: only a [dict] has the method. *)
Definition json_get (data : json) (key : string) : result (option Z) :=
  match data with
  | JObj d => Return (dict_get d key)
  | JOther => Raise AttributeError
  end.

(** ** The primitives of the external libraries *)

(** What passlib's [bcrypt.from_string] reads off a digest: the variant, the
    cost, the salt and, unless the text is a bare configuration, the
    checksum. *)
Module bcrypt.
Record t : Type := {
  ident : string;
  rounds : Z;
  salt : string;
  checksum : option string;
}.
End bcrypt.

(** The two aggregate queries of the dashboard; the engine plans each one
    on its own. *)
Inductive sum_query : Type :=
| GroupBalances
| TotalBalance.

Class Backend : Type := {
  (** itsdangerous: url-safe base64 of the HMAC of [value] under the key
      derived from [SECRET_KEY]. *)
  get_signature : string -> string;
  (** itsdangerous [Signer.verify_signature value sig]: decodes [sig] and
      compares it with the HMAC of [value] in constant time. *)
  verify_signature : string -> string -> bool;
  (** url-safe base64 of the big-endian bytes of the issue time. *)
  encode_timestamp : N -> string;
  (** [bytes_to_int(base64_decode(ts))]; [None] when that raises. *)
  decode_timestamp : string -> option N;
  (** JSON, optional zlib, url-safe base64. *)
  dump_payload : json -> string;
  (** [None] when [load_payload] raises [BadPayload]. *)
  load_payload : string -> option json;
  (** bcrypt: the 31-character checksum of a secret that passlib has let
      through, under a variant, a cost and a salt. *)
  bcrypt_calc_checksum : string -> Z -> string -> string -> string;
  (** passlib [bcrypt.from_string]: the parts of a digest, or the error it
      raises on a text that is not one. *)
  bcrypt_from_string : string -> result bcrypt.t;
  (** The engine's SUM over the rows of a query, not empty, of a [Float]
      column: in which order it adds, whether it compensates the rounding,
      and whether it has a result at all (a sum that is not a number comes
      back as NULL) is the engine's. *)
  sum_rows : sum_query -> list float -> option float;
}.

(** What the primitives are relied on for: a signature verifies, neither a
    signature nor a timestamp contains the separator, and what was encoded
    decodes to itself. *)
Class BackendLaws (B : Backend) : Prop := {
  verify_get_signature : forall value, verify_signature value (get_signature value) = true;
  get_signature_no_sep : forall value, contains_sep (get_signature value) = false;
  encode_timestamp_no_sep : forall t, contains_sep (encode_timestamp t) = false;
  decode_encode_timestamp : forall t, decode_timestamp (encode_timestamp t) = Some t;
  load_dump_session : forall user_id,
    load_payload (dump_payload (JObj [("user_id", user_id)])) = Some (JObj [("user_id", user_id)]);
  bcrypt_from_to_string : forall salt secret,
    String.length salt = 22%nat ->
    bcrypt_from_string
      ("$2b$12$" ++ salt ++ bcrypt_calc_checksum "$2b$" 12 salt secret)
    = Return {| bcrypt.ident := "$2b$";
                bcrypt.rounds := 12;
                bcrypt.salt := salt;
                bcrypt.checksum := Some (bcrypt_calc_checksum "$2b$" 12 salt secret) |};
}.

(** ** auth.py *)

Module auth.
Section WithBackend.
Context {B : Backend}.

Definition SESSION_COOKIE : string := "session".
Definition SESSION_MAX_AGE : Z := 60 * 60 * 24 * 14.

(** *** passlib: [CryptContext(schemes=["bcrypt"])] *)

Definition bcrypt_ident_values : list string :=
  ["$2$"; "$2a$"; "$2x$"; "$2y$"; "$2b$"].

(** [bcrypt.identify(hash)] *)
Definition identify (hash : string) : bool :=
  existsb (fun ident => String.prefix ident hash) bcrypt_ident_values.

(** [MAX_PASSWORD_SIZE] of [passlib.utils.handlers]. *)
Definition MAX_PASSWORD_SIZE : Z := 4096.

(** Whether the secret holds a NUL byte. *)
Fixpoint contains_nul (s : string) : bool :=
  match s with
  | EmptyString => false
  | String c s' => Ascii.eqb c Ascii.zero || contains_nul s'
  end.

(** [len(s)] of a [str] that is held here as its UTF-8 bytes: the bytes
    that continue a character ([10xxxxxx]) are not counted. *)
Definition utf8_continuation (c : ascii) : bool :=
  match c with
  | Ascii _ _ _ _ _ _ b6 b7 => b7 && negb b6
  end.

Fixpoint str_len (s : string) : Z :=
  match s with
  | EmptyString => 0
  | String c s' => (if utf8_continuation c then 0 else 1) + str_len s'
  end.

(** [len(s.encode("utf-8"))] *)
Definition bytes_len (s : string) : Z := Z.of_nat (String.length s).

(** [bcrypt._calc_checksum(secret)] for a parsed or a new digest: the
    encoded secret is measured, a NUL byte is refused, and what is left goes
    to the backend. *)
Definition calc_checksum (ident : string) (rounds : Z) (salt secret : string)
  : result string :=
  if MAX_PASSWORD_SIZE <? bytes_len secret then Raise PasswordSizeError
  else if contains_nul secret then Raise NullPasswordError
  else Return (bcrypt_calc_checksum ident rounds salt secret).

(** [pwd_context.hash(secret)] with the salt that was drawn: variant [2b],
    cost 12. *)
Definition pwd_context_hash (salt secret : string) : result string :=
  if MAX_PASSWORD_SIZE <? str_len secret then Raise PasswordSizeError
  else bind (calc_checksum "$2b$" 12 salt secret)
            (fun chk => Return ("$2b$12$" ++ salt ++ chk)).

(** [pwd_context.verify(secret, hash)]: the scheme is identified from the
    digest, the secret is measured, the digest is parsed, the checksum is
    recomputed under the digest's variant, cost and salt, and compared. *)
Definition pwd_context_verify (secret hash : string) : result bool :=
  if identify hash then
    if MAX_PASSWORD_SIZE <? str_len secret then Raise PasswordSizeError
    else
      bind (bcrypt_from_string hash) (fun h =>
        match bcrypt.checksum h with
        | None => Raise MissingDigestError
        | Some chk =>
            bind (calc_checksum (bcrypt.ident h) (bcrypt.rounds h) (bcrypt.salt h) secret)
                 (fun computed => Return (String.eqb computed chk))
        end)
  else Raise UnknownHashError.

Definition hash_password (salt password : string) : result string :=
  pwd_context_hash salt password.

Definition verify_password (plain_password hashed_password : string) : result bool :=
  pwd_context_verify plain_password hashed_password.

(** *** itsdangerous: [URLSafeTimedSerializer(SECRET_KEY)] *)

(** [Signer.unsign]: the value, or the error together with the payload the
    exception carries. *)
Definition Signer_unsign (signed_value : string) : string + option string :=
  match rsplit signed_value with
  | None => inr None
  | Some (value, sig) =>
      if verify_signature value sig then inl value else inr (Some value)
  end.

(** The last second that [datetime] can hold: 9999-12-31T23:59:59Z. *)
Definition MAX_DATETIME : N := 253402300799.

(** [self.timestamp_to_datetime(ts)] *)
Definition timestamp_to_datetime (ts : N) : result N :=
  if (ts <=? MAX_DATETIME)%N then Return ts else Raise ValueError.

(** [raise SignatureExpired(..., date_signed=self.timestamp_to_datetime(ts))]:
    the date is computed before the exception is built. *)
Definition raise_SignatureExpired {A : Type} (ts : N) : result A :=
  bind (timestamp_to_datetime ts) (fun _ => Raise SignatureExpired).

(** [TimestampSigner.unsign(signed_value, max_age, return_timestamp=True)],
    at wall-clock time [clock]. A signature error is reported before a
    missing or unreadable timestamp; an age above [max_age] and an issue time
    in the future are both [SignatureExpired]. On the path that returns, the
    issue time is not later than the wall clock, which is taken to lie within
    the range of [datetime], so its conversion is not a point of failure
    there. *)
Definition TimestampSigner_unsign (clock : N) (signed_value : string) (max_age : Z)
  : result (string * N) :=
  let '(sig_error, result) :=
    match Signer_unsign signed_value with
    | inl value => (false, value)
    | inr payload => (true, match payload with Some p => p | None => EmptyString end)
    end in
  match rsplit result with
  | None => if sig_error then Raise BadSignature else Raise BadTimeSignature
  | Some (value, ts_bytes) =>
      let ts_int := decode_timestamp ts_bytes in
      if sig_error then Raise BadTimeSignature
      else
        match ts_int with
        | None => Raise BadTimeSignature
        | Some ts =>
            let age := Z.of_N clock - Z.of_N ts in
            if age >? max_age then raise_SignatureExpired ts
            else if age <? 0 then raise_SignatureExpired ts
            else Return (value, ts)
        end
  end.

(** [serializer.dumps(obj)] at wall-clock time [clock]. *)
Definition dumps (clock : N) (obj : json) : string :=
  let value := dump_payload obj ++ String sep (encode_timestamp clock) in
  value ++ String sep (get_signature value).

(** [serializer.loads(s, max_age)] at wall-clock time [clock]. *)
Definition loads (clock : N) (s : string) (max_age : Z) : result json :=
  match TimestampSigner_unsign clock s max_age with
  | Raise e => Raise e
  | Return (base64d, _) =>
      match load_payload base64d with
      | Some payload => Return payload
      | None => Raise BadPayload
      end
  end.

Definition create_session_token (clock : N) (user_id : Z) : string :=
  dumps clock (JObj [("user_id", user_id)]).

Definition read_session_token (clock : N) (token : string) : result (option Z) :=
  match loads clock token SESSION_MAX_AGE with
  | Raise e =>
      if isinstance_BadSignature e || isinstance_SignatureExpired e
      then Return None
      else Raise e
  | Return data => json_get data "user_id"
  end.

End WithBackend.
End auth.

(** ** models.py *)

Module User.
Record t : Type := {
  id : Z;
  username : string;
  password_hash : string;
}.
End User.

Module DebtGroup.
Record t : Type := {
  id : Z;
  user_id : Z;
  name : string;
  created_at : Z;
}.
End DebtGroup.

Module DebtItem.
Record t : Type := {
  id : Z;
  user_id : Z;
  group_id : Z;
  amount : float;
  note : option string;
  created_at : Z;
}.
End DebtItem.

(** ** The data store *)

(** Modelled from the spec: [db.py] (the engine, [Base] and [SessionLocal])
    is not among the sources; the spec treats the store as "an external
    collaborator providing durable, transactional create/read/update/delete".
    The three tables of [models.py] are kept as their rows in insertion
    order, and a query reads them in that order. *)
Record DB : Type := {
  users : list User.t;
  debt_groups : list DebtGroup.t;
  debt_items : list DebtItem.t;
}.

Definition empty_db : DB :=
  {| users := []; debt_groups := []; debt_items := [] |}.

(** [.first()] *)
Definition first {A : Type} (rows : list A) : option A :=
  match rows with
  | [] => None
  | r :: _ => Some r
  end.

(** The primary key of a new row: one more than the largest one in use. *)
Definition next_id (ids : list Z) : Z :=
  1 + fold_right Z.max 0 ids.

(** [ORDER BY key DESC], as a stable insertion sort. *)
Fixpoint insert_desc {A : Type} (key : A -> Z) (row : A) (rows : list A) : list A :=
  match rows with
  | [] => [row]
  | r :: rs =>
      if key r <=? key row then row :: r :: rs
      else r :: insert_desc key row rs
  end.

Definition order_by_desc {A : Type} (key : A -> Z) (rows : list A) : list A :=
  fold_right (insert_desc key) [] rows.

(** [func.sum(column)] over a [Float] column: NULL over no rows, otherwise
    what the engine makes of the rows. *)
Definition sql_sum {B : Backend} (query : sum_query) (xs : list float) : option float :=
  match xs with
  | [] => None
  | _ => sum_rows query xs
  end.

(** [func.coalesce(x, default)] *)
Definition coalesce (x : option float) (default : float) : float :=
  match x with
  | Some v => v
  | None => default
  end.

(** Python truthiness of a [float], and [x or default]. *)
Definition float_truthy (x : float) : bool :=
  negb (PrimFloat.eqb x 0%float).

Definition py_or (x default : float) : float :=
  if float_truthy x then x else default.

(** Python [sum(...)] over floats (the start value is the integer [0]). *)
Definition py_sum (xs : list float) : float :=
  fold_left PrimFloat.add xs 0%float.

(** [str(n)] for an integer. *)
Definition str_of_int (n : Z) : string :=
  DecimalString.NilZero.string_of_int (Z.to_int n).

(** ** main.py *)

Record Env : Type := {
  clock : N;          (* int(time.time()), seconds *)
  utcnow : Z;         (* datetime.utcnow() *)
  salt : string;      (* the salt bcrypt draws *)
}.

Record Request : Type := {
  cookies : list (string * string);
}.

Fixpoint cookies_get (cs : list (string * string)) (key : string) : option string :=
  match cs with
  | [] => None
  | (k, v) :: cs' => if String.eqb k key then Some v else cookies_get cs' key
  end.

Record Cookie : Type := {
  key : string;
  value : string;
  httponly : bool;
  samesite : string;
}.

(** The template context, without its ["request"] entry. *)
Inductive Context : Type :=
| FormContext (error : option string)
| DashboardContext (user : User.t) (groups : list (DebtGroup.t * float)) (total_balance : float)
| GroupContext (user : User.t) (group : DebtGroup.t) (items : list DebtItem.t) (balance : float).

Inductive Response : Type :=
| TemplateResponse (name : string) (context : Context) (status_code : Z)
| RedirectResponse (url : string) (status_code : Z)
    (set_cookie : list Cookie) (delete_cookie : list string)
| JSONResponse (content : list (string * string)).

(** The two scoped lookups of the handlers. *)
Definition query_group (db : DB) (group_id user_id : Z) : option DebtGroup.t :=
  first (filter (fun g => (DebtGroup.id g =? group_id) && (DebtGroup.user_id g =? user_id))
                (debt_groups db)).

Definition query_item (db : DB) (item_id group_id user_id : Z) : option DebtItem.t :=
  first (filter (fun i => (DebtItem.id i =? item_id) && (DebtItem.group_id i =? group_id)
                          && (DebtItem.user_id i =? user_id))
                (debt_items db)).

(** [db.delete(item); db.commit()] *)
Definition db_delete_item (db : DB) (item : DebtItem.t) : DB :=
  {| users := users db;
     debt_groups := debt_groups db;
     debt_items := filter (fun i => negb (DebtItem.id i =? DebtItem.id item)) (debt_items db) |}.

(** [db.delete(group); db.commit()]: the relationship [DebtGroup.items]
    (joined on [DebtItem.group_id == DebtGroup.id]) has
    [cascade="all, delete-orphan"], so each of its rows is deleted by
    primary key before the group's row. *)
Definition db_delete_group (db : DB) (group : DebtGroup.t) : DB :=
  let cascaded :=
    map DebtItem.id
        (filter (fun i => DebtItem.group_id i =? DebtGroup.id group) (debt_items db)) in
  {| users := users db;
     debt_groups := filter (fun g => negb (DebtGroup.id g =? DebtGroup.id group)) (debt_groups db);
     debt_items := filter (fun i => negb (existsb (Z.eqb (DebtItem.id i)) cascaded)) (debt_items db) |}.

Module main.
Section WithBackend.
Context {B : Backend}.

Definition unauthorized : exn := HTTPException 401 [].
Definition not_found : exn := HTTPException 404 [].

Definition get_current_user (env : Env) (request : Request) (db : DB) : result User.t :=
  match cookies_get (cookies request) auth.SESSION_COOKIE with
  | None => Raise unauthorized
  | Some token =>
      if negb (str_truthy token) then Raise unauthorized
      else
        bind (auth.read_session_token (clock env) token) (fun user_id =>
          match user_id with
          | None => Raise unauthorized
          | Some uid =>
              if uid =? 0 then Raise unauthorized
              else
                match first (filter (fun u => User.id u =? uid) (users db)) with
                | None => Raise unauthorized
                | Some user => Return user
                end
          end)
  end.

Definition require_user (env : Env) (request : Request) (db : DB) : result User.t :=
  match get_current_user env request db with
  | Return user => Return user
  | Raise e =>
      if isinstance_HTTPException e
      then Raise (HTTPException 302 [("Location", "/login")])
      else Raise e
  end.

(** A handler whose signature has [user: User = Depends(require_user)]. *)
Definition with_user (env : Env) (request : Request) (db : DB)
    (body : User.t -> result Response * DB) : result Response * DB :=
  match require_user env request db with
  | Return user => body user
  | Raise e => (Raise e, db)
  end.

Definition session_cookie (token : string) : Cookie :=
  {| key := auth.SESSION_COOKIE; value := token; httponly := true; samesite := "lax" |}.

Definition root : Response :=
  RedirectResponse "/dashboard" 307 [] [].

Definition register_page : Response :=
  TemplateResponse "register.html" (FormContext None) 200.

Definition login_page : Response :=
  TemplateResponse "login.html" (FormContext None) 200.

(** [datetime.utcnow().isoformat()] is left as the number of the instant. *)
Definition health (env : Env) : Response :=
  JSONResponse [("status", "ok"); ("time", str_of_int (utcnow env))].

Definition register (env : Env) (username password : string) (db : DB)
  : result Response * DB :=
  match first (filter (fun u => String.eqb (User.username u) username) (users db)) with
  | Some existing =>
      (Return (TemplateResponse "register.html"
                 (FormContext (Some "Это имя уже занято.")) 400), db)
  | None =>
      match auth.hash_password (salt env) password with
      | Raise e => (Raise e, db)
      | Return digest =>
          let user := {| User.id := next_id (map User.id (users db));
                         User.username := username;
                         User.password_hash := digest |} in
          let db' := {| users := users db ++ [user];
                        debt_groups := debt_groups db;
                        debt_items := debt_items db |} in
          let token := auth.create_session_token (clock env) (User.id user) in
          (Return (RedirectResponse "/dashboard" 302 [session_cookie token] []), db')
      end
  end.

Definition login_error : Response :=
  TemplateResponse "login.html" (FormContext (Some "Неверный логин или пароль.")) 400.

Definition login (env : Env) (username password : string) (db : DB)
  : result Response * DB :=
  let issue (user : User.t) :=
    let token := auth.create_session_token (clock env) (User.id user) in
    (Return (RedirectResponse "/dashboard" 302 [session_cookie token] []), db) in
  match first (filter (fun u => String.eqb (User.username u) username) (users db)) with
  | None => (Return login_error, db)
  | Some user =>
      match auth.verify_password password (User.password_hash user) with
      | Raise e => (Raise e, db)
      | Return false => (Return login_error, db)
      | Return true => issue user
      end
  end.

Definition logout : Response :=
  RedirectResponse "/login" 302 [] [auth.SESSION_COOKIE].

(** The first query of [dashboard]: the caller's groups, outer-joined with
    the items on [DebtItem.group_id == DebtGroup.id], grouped by the group's
    primary key and ordered by creation time, newest first. *)
Definition group_balances (db : DB) (user : User.t) : list (DebtGroup.t * float) :=
  order_by_desc (fun row => DebtGroup.created_at (fst row))
    (map (fun g =>
            (g, coalesce
                  (sql_sum GroupBalances (map DebtItem.amount
                              (filter (fun i => DebtItem.group_id i =? DebtGroup.id g)
                                      (debt_items db))))
                  0%float))
         (filter (fun g => DebtGroup.user_id g =? User.id user) (debt_groups db))).

(** The second query of [dashboard]. *)
Definition total_balance (db : DB) (user : User.t) : float :=
  py_or (coalesce
           (sql_sum TotalBalance (map DebtItem.amount
                       (filter (fun i => DebtItem.user_id i =? User.id user) (debt_items db))))
           0%float)
        0%float.

Definition dashboard (env : Env) (request : Request) (db : DB) : result Response * DB :=
  with_user env request db (fun user =>
    (Return (TemplateResponse "dashboard.html"
               (DashboardContext user (group_balances db user) (total_balance db user)) 200),
     db)).

Definition create_group (env : Env) (request : Request) (name : string) (db : DB)
  : result Response * DB :=
  with_user env request db (fun user =>
    let group := {| DebtGroup.id := next_id (map DebtGroup.id (debt_groups db));
                    DebtGroup.user_id := User.id user;
                    DebtGroup.name := name;
                    DebtGroup.created_at := utcnow env |} in
    (Return (RedirectResponse "/dashboard" 302 [] []),
     {| users := users db;
        debt_groups := debt_groups db ++ [group];
        debt_items := debt_items db |})).

Definition group_detail (env : Env) (request : Request) (group_id : Z) (db : DB)
  : result Response * DB :=
  with_user env request db (fun user =>
    match query_group db group_id (User.id user) with
    | None => (Raise not_found, db)
    | Some group =>
        let items :=
          order_by_desc DebtItem.created_at
            (filter (fun i => (DebtItem.group_id i =? DebtGroup.id group)
                              && (DebtItem.user_id i =? User.id user))
                    (debt_items db)) in
        let balance := py_sum (map DebtItem.amount items) in
        (Return (TemplateResponse "group.html" (GroupContext user group items balance) 200), db)
    end).

Definition add_item (env : Env) (request : Request) (group_id : Z)
    (amount : float) (note : option string) (db : DB) : result Response * DB :=
  with_user env request db (fun user =>
    match query_group db group_id (User.id user) with
    | None => (Raise not_found, db)
    | Some group =>
        let item := {| DebtItem.id := next_id (map DebtItem.id (debt_items db));
                       DebtItem.user_id := User.id user;
                       DebtItem.group_id := DebtGroup.id group;
                       DebtItem.amount := amount;
                       DebtItem.note := note;
                       DebtItem.created_at := utcnow env |} in
        (Return (RedirectResponse ("/groups/" ++ str_of_int (DebtGroup.id group)) 302 [] []),
         {| users := users db;
            debt_groups := debt_groups db;
            debt_items := debt_items db ++ [item] |})
    end).

Definition delete_item (env : Env) (request : Request) (group_id item_id : Z) (db : DB)
  : result Response * DB :=
  with_user env request db (fun user =>
    match query_item db item_id group_id (User.id user) with
    | None => (Raise not_found, db)
    | Some item =>
        (Return (RedirectResponse ("/groups/" ++ str_of_int group_id) 302 [] []),
         db_delete_item db item)
    end).

Definition delete_group (env : Env) (request : Request) (group_id : Z) (db : DB)
  : result Response * DB :=
  with_user env request db (fun user =>
    match query_group db group_id (User.id user) with
    | None => (Raise not_found, db)
    | Some group =>
        (Return (RedirectResponse "/dashboard" 302 [] []), db_delete_group db group)
    end).

(** The routes of the application, and the states of the data store that
    requests reach from the empty one. *)
Inductive Call : Type :=
| Root
| RegisterPage
| Register (username password : string)
| LoginPage
| Login (username password : string)
| Logout
| Dashboard
| CreateGroup (name : string)
| GroupDetail (group_id : Z)
| AddItem (group_id : Z) (amount : float) (note : option string)
| DeleteItem (group_id item_id : Z)
| DeleteGroup (group_id : Z)
| Health.

Definition handle (env : Env) (request : Request) (call : Call) (db : DB)
  : result Response * DB :=
  match call with
  | Root => (Return root, db)
  | RegisterPage => (Return register_page, db)
  | Register username password => register env username password db
  | LoginPage => (Return login_page, db)
  | Login username password => login env username password db
  | Logout => (Return logout, db)
  | Dashboard => dashboard env request db
  | CreateGroup name => create_group env request name db
  | GroupDetail group_id => group_detail env request group_id db
  | AddItem group_id amount note => add_item env request group_id amount note db
  | DeleteItem group_id item_id => delete_item env request group_id item_id db
  | DeleteGroup group_id => delete_group env request group_id db
  | Health => (Return (health env), db)
  end.

Inductive reachable : DB -> Prop :=
| reachable_init : reachable empty_db
| reachable_step (env : Env) (request : Request) (call : Call) (db : DB) :
    reachable db -> reachable (snd (handle env request call db)).

End WithBackend.
End main.

(** ** What the claims speak of *)

Section Vocabulary.
Context {B : Backend}.

(** The token ends in a signature that verifies for the text before it. *)
Definition signature_valid (token : string) : bool :=
  match rsplit token with
  | Some (value, sig) => verify_signature value sig
  | None => false
  end.

(** The issue time a token carries, when it carries a readable one. *)
Definition issued_at (token : string) : option N :=
  match rsplit token with
  | Some (value, _) =>
      match rsplit value with
      | Some (_, ts) => decode_timestamp ts
      | None => None
      end
  | None => None
  end.

(** The payload a token carries, when it carries a readable one. *)
Definition embedded_payload (token : string) : option json :=
  match rsplit token with
  | Some (value, _) =>
      match rsplit value with
      | Some (payload, _) => load_payload payload
      | None => None
      end
  | None => None
  end.

(** Seconds between the issue of a token and the reading of it. *)
Definition elapsed (clock issued : N) : Z :=
  Z.of_N clock - Z.of_N issued.

(** A text that passlib identifies as bcrypt and reads as a digest with a
    checksum. *)
Definition bcrypt_digest (hash : string) (h : bcrypt.t) (chk : string) : Prop :=
  auth.identify hash = true /\
  bcrypt_from_string hash = Return h /\
  bcrypt.checksum h = Some chk.

End Vocabulary.

(** A secret that passlib lets through to bcrypt: at most
    [MAX_PASSWORD_SIZE] bytes, none of them NUL. *)
Definition acceptable_secret (secret : string) : bool :=
  (auth.bytes_len secret <=? auth.MAX_PASSWORD_SIZE) && negb (auth.contains_nul secret).

Definition items_of_group (db : DB) (g : DebtGroup.t) : list DebtItem.t :=
  filter (fun i => DebtItem.group_id i =? DebtGroup.id g) (debt_items db).

Definition items_of_user (db : DB) (u : User.t) : list DebtItem.t :=
  filter (fun i => DebtItem.user_id i =? User.id u) (debt_items db).

Definition groups_of_user (db : DB) (u : User.t) : list DebtGroup.t :=
  filter (fun g => DebtGroup.user_id g =? User.id u) (debt_groups db).

(** No group has the identifier; a group has it and every such group
    belongs to somebody else. *)
Definition group_absent (db : DB) (group_id : Z) : Prop :=
  forall g, In g (debt_groups db) -> DebtGroup.id g <> group_id.

Definition group_foreign (db : DB) (group_id user_id : Z) : Prop :=
  (exists g, In g (debt_groups db) /\ DebtGroup.id g = group_id) /\
  (forall g, In g (debt_groups db) -> DebtGroup.id g = group_id ->
             DebtGroup.user_id g <> user_id).

Definition item_absent (db : DB) (item_id : Z) : Prop :=
  forall i, In i (debt_items db) -> DebtItem.id i <> item_id.

Definition item_foreign (db : DB) (item_id user_id : Z) : Prop :=
  (exists i, In i (debt_items db) /\ DebtItem.id i = item_id) /\
  (forall i, In i (debt_items db) -> DebtItem.id i = item_id ->
             DebtItem.user_id i <> user_id).

Definition username_taken (db : DB) (username : string) : Prop :=
  exists u, In u (users db) /\ User.username u = username.

(** Newest first. *)
Definition newer_or_same (r1 r2 : DebtGroup.t * float) : Prop :=
  DebtGroup.created_at (fst r2) <= DebtGroup.created_at (fst r1).

(** Every item is owned by the owner of an existing group it belongs to. *)
Definition item_owner_is_group_owner (db : DB) : Prop :=
  forall i, In i (debt_items db) ->
    (exists g, In g (debt_groups db) /\ DebtGroup.id g = DebtItem.group_id i) /\
    (forall g, In g (debt_groups db) -> DebtGroup.id g = DebtItem.group_id i ->
               DebtGroup.user_id g = DebtItem.user_id i).

(** Primary keys are unique in each table. *)
Definition primary_keys_unique (db : DB) : Prop :=
  NoDup (map User.id (users db)) /\
  NoDup (map DebtGroup.id (debt_groups db)) /\
  NoDup (map DebtItem.id (debt_items db)).

(** What every reachable state of the store satisfies. *)
Definition store_invariant (db : DB) : Prop :=
  primary_keys_unique db /\ item_owner_is_group_owner db.

(** ** A small backend to run the handlers with

    Numbers are written in unary, the signature of a text is its length, a
    digest is split at fixed positions. It satisfies [BackendLaws]. *)

Module toy.

Fixpoint unary (n : nat) : string :=
  match n with
  | O => EmptyString
  | S n' => String "1"%char (unary n')
  end.

Definition encode_Z (z : Z) : string :=
  String (if z <? 0 then "-"%char else "+"%char) (unary (Z.abs_nat z)).

Definition decode_Z (s : string) : option Z :=
  match s with
  | String c r =>
      if Ascii.eqb c "-"%char then Some (- Z.of_nat (String.length r))
      else if Ascii.eqb c "+"%char then Some (Z.of_nat (String.length r))
      else None
  | EmptyString => None
  end.

Fixpoint split_at (n : nat) (s : string) : option (string * string) :=
  match n, s with
  | O, _ => Some (EmptyString, s)
  | S n', String c s' =>
      match split_at n' s' with
      | Some (a, b) => Some (String c a, b)
      | None => None
      end
  | S _, EmptyString => None
  end.

Definition sign (value : string) : string :=
  String "s"%char (unary (String.length value)).

Definition dump (j : json) : string :=
  match j with
  | JObj [(k, v)] => if String.eqb k "user_id" then encode_Z v else "?"
  | JObj [] => "{}"
  | _ => "?"
  end.

Definition load (s : string) : option json :=
  if String.eqb s "{}" then Some (JObj [])
  else if String.eqb s "[]" then Some JOther
  else match decode_Z s with
       | Some v => Some (JObj [("user_id", v)])
       | None => None
       end.

Definition calc (ident : string) (rounds : Z) (salt secret : string) : string :=
  String "c"%char (unary (Z.to_nat rounds) ++ secret ++ salt).

Definition parse_cost (cost : string) : option Z :=
  if String.eqb cost "12$" then Some 12
  else if String.eqb cost "04$" then Some 4
  else None.

Definition from_string (hash : string) : result bcrypt.t :=
  match split_at 4 hash with
  | Some (ident, rest) =>
      if String.eqb ident "$2b$" then
        match split_at 3 rest with
        | Some (cost, data) =>
            match parse_cost cost, split_at 22 data with
            | Some rounds, Some (salt, chk) =>
                Return {| bcrypt.ident := ident;
                          bcrypt.rounds := rounds;
                          bcrypt.salt := salt;
                          bcrypt.checksum :=
                            match chk with
                            | EmptyString => None
                            | _ => Some chk
                            end |}
            | _, _ => Raise MalformedHashError
            end
        | None => Raise MalformedHashError
        end
      else Raise MalformedHashError
  | None => Raise MalformedHashError
  end.

Definition backend : Backend :=
  {| get_signature := sign;
     verify_signature := fun value sig => String.eqb sig (sign value);
     encode_timestamp := fun t => unary (N.to_nat t);
     decode_timestamp := fun s => Some (N.of_nat (String.length s));
     dump_payload := dump;
     load_payload := load;
     bcrypt_calc_checksum := calc;
     bcrypt_from_string := from_string;
     sum_rows := fun _ xs => Some (fold_left PrimFloat.add xs 0%float) |}.

Definition salt22 : string := "abcdefghijklmnopqrstuv".

(** The digest of a password under [salt22], variant [2b], and cost 12; and
    the same text with the cost field rewritten to 4. *)
Definition digest_of (password : string) : string :=
  "$2b$12$" ++ salt22 ++ calc "$2b$" 12 salt22 password.


(** A password with a NUL byte in it. *)
Definition nul_password : string :=
  String "p"%char (String Ascii.zero "w").

Definition env0 : Env := {| clock := 3; utcnow := 5; salt := salt22 |}.
Definition env1 : Env := {| clock := 4; utcnow := 9; salt := salt22 |}.

Definition token_for (user_id : Z) : string :=
  auth.create_session_token (B := backend) 3 user_id.

Definition request_with (token : string) : Request :=
  {| cookies := [("session", token)] |}.

(** A signed, fresh token whose payload is the empty object. *)
Definition token_without_user_id : string := "{}.111.s111111".

(** A signed, fresh token whose payload is a list. *)
Definition token_with_list_payload : string := "[].111.s111111".

Definition db_user0 : DB :=
  {| users := [{| User.id := 0; User.username := "zero"; User.password_hash := "" |}];
     debt_groups := [];
     debt_items := [] |}.

(** alice (user 1) and bob (user 2) register; alice opens a group and
    records three items in it; bob opens a group of his own. *)
Definition alice : User.t :=
  {| User.id := 1;
     User.username := "alice";
     User.password_hash := digest_of "pw" |}.

Definition flat : DebtGroup.t :=
  {| DebtGroup.id := 1; DebtGroup.user_id := 1;
     DebtGroup.name := "flat"; DebtGroup.created_at := 5 |}.

Definition as_alice : Request := request_with (token_for 1).
Definition as_bob : Request := request_with (token_for 2).

Definition bob : User.t :=
  {| User.id := 2;
     User.username := "bob";
     User.password_hash := digest_of "hunter2" |}.

Definition run (env : Env) (request : Request) (call : main.Call) (db : DB) : DB :=
  snd (main.handle (B := backend) env request call db).

Definition db_alice : DB :=
  run env0 (request_with "") (main.Register "alice" "pw") empty_db.

Definition db_users : DB :=
  run env0 (request_with "") (main.Register "bob" "hunter2") db_alice.

Definition db_group : DB :=
  run env0 as_alice (main.CreateGroup "flat") db_users.

Definition db_items : DB :=
  run env0 as_alice (main.AddItem 1 2%float None)
    (run env0 as_alice (main.AddItem 1 (-3.5)%float (Some "taxi"))
       (run env0 as_alice (main.AddItem 1 10%float None) db_group)).

Definition db_two_groups : DB :=
  run env1 as_bob (main.CreateGroup "trip") db_items.

End toy.

(** ** Further vocabulary *)

(** The routes whose signature has [Depends(require_user)]. *)
Definition requires_login (call : main.Call) : bool :=
  match call with
  | main.Dashboard | main.CreateGroup _ | main.GroupDetail _
  | main.AddItem _ _ _ | main.DeleteItem _ _ | main.DeleteGroup _ => true
  | _ => false
  end.

(** The request a browser sends once it holds the session cookie. *)
Definition request_with_session (token : string) : Request :=
  {| cookies := [(auth.SESSION_COOKIE, token)] |}.

Definition login_redirect : exn :=
  HTTPException 302 [("Location", "/login")].

(** No two users share a username. *)
Definition usernames_unique (db : DB) : Prop :=
  NoDup (map User.username (users db)).

(** Primary keys start at one. *)
Definition ids_positive (db : DB) : Prop :=
  (forall u, In u (users db) -> 1 <= User.id u) /\
  (forall g, In g (debt_groups db) -> 1 <= DebtGroup.id g) /\
  (forall i, In i (debt_items db) -> 1 <= DebtItem.id i).

(** Every group and every item names a stored user as its owner. *)
Definition owners_exist (db : DB) : Prop :=
  (forall g, In g (debt_groups db) ->
             exists u, In u (users db) /\ User.id u = DebtGroup.user_id g) /\
  (forall i, In i (debt_items db) ->
             exists u, In u (users db) /\ User.id u = DebtItem.user_id i).

(** What a user sees: the dashboard's rows and total. *)
Definition view_of {B : Backend} (db : DB) (u : User.t) : list (DebtGroup.t * float) * float :=
  (main.group_balances db u, main.total_balance db u).

(** What registration and the owner fields keep true of the store. *)
Definition account_invariant (db : DB) : Prop :=
  usernames_unique db /\ ids_positive db /\ owners_exist db.

(** The rows of a user are the same in two states of the store: the
    user's groups, the user's items, and the items of each of those groups. *)
Definition same_rows_of (db db' : DB) (owner : User.t) : Prop :=
  groups_of_user db' owner = groups_of_user db owner /\
  items_of_user db' owner = items_of_user db owner /\
  (forall g, In g (groups_of_user db owner) -> items_of_group db' g = items_of_group db g).

(** The routes that write to the store. *)
Definition mutates (call : main.Call) : bool :=
  match call with
  | main.Register _ _ | main.CreateGroup _ | main.AddItem _ _ _
  | main.DeleteItem _ _ | main.DeleteGroup _ => true
  | _ => false
  end.

(** * Properties *)

(** ** Splitting at the last separator *)

Lemma rsplit_no_sep (s : string) :
  contains_sep s = false -> rsplit s = None.
Proof.
  induction s as [|c s IH]; simpl; [reflexivity|].
  intros H. apply orb_false_iff in H as [Hc Hs].
  rewrite (IH Hs), Hc. reflexivity.
Qed.

Lemma rsplit_app_sep (a b : string) :
  contains_sep b = false -> rsplit (a ++ String sep b) = Some (a, b).
Proof.
  intros Hb. induction a as [|c a IH]; simpl.
  - rewrite (rsplit_no_sep b Hb). reflexivity.
  - rewrite IH. reflexivity.
Qed.

Lemma rsplit_some_contains (s : string) :
  contains_sep s = true -> exists a b, rsplit s = Some (a, b).
Proof.
  induction s as [|c s IH]; simpl; [discriminate|].
  intros H. destruct (rsplit s) as [[a b]|] eqn:E.
  - eauto.
  - destruct (Ascii.eqb c sep) eqn:Ec; simpl in H.
    + eauto.
    + destruct (IH H) as (a & b & Hab). discriminate.
Qed.

(** ** The small backend satisfies the laws *)

Lemma toy_unary_no_sep (n : nat) : contains_sep (toy.unary n) = false.
Proof. induction n as [|n IH]; simpl; [reflexivity | exact IH]. Qed.

Lemma toy_unary_length (n : nat) : String.length (toy.unary n) = n.
Proof. induction n as [|n IH]; simpl; [reflexivity | now rewrite IH]. Qed.

Lemma toy_decode_encode_Z (z : Z) : toy.decode_Z (toy.encode_Z z) = Some z.
Proof.
  unfold toy.encode_Z, toy.decode_Z.
  destruct (z <? 0) eqn:E; simpl; rewrite toy_unary_length; f_equal.
  - apply Z.ltb_lt in E. rewrite Zabs2Nat.id_abs. lia.
  - apply Z.ltb_ge in E. rewrite Zabs2Nat.id_abs. lia.
Qed.

Lemma toy_load_dump (user_id : Z) :
  toy.load (toy.dump (JObj [("user_id", user_id)])) = Some (JObj [("user_id", user_id)]).
Proof.
  unfold toy.dump. simpl String.eqb. cbv iota.
  unfold toy.load. rewrite toy_decode_encode_Z.
  unfold toy.encode_Z. destruct (user_id <? 0); reflexivity.
Qed.

Lemma toy_split_at_app (a b : string) :
  toy.split_at (String.length a) (a ++ b) = Some (a, b).
Proof.
  induction a as [|c a IH]; simpl; [reflexivity | now rewrite IH].
Qed.

#[export] Instance toy_laws : BackendLaws toy.backend.
Proof.
  constructor; simpl.
  - intros value. apply String.eqb_refl.
  - intros value. apply toy_unary_no_sep.
  - intros t. apply toy_unary_no_sep.
  - intros t. rewrite toy_unary_length, N2Nat.id. reflexivity.
  - apply toy_load_dump.
  - intros salt secret Hlen.
    change (match toy.split_at 22 (salt ++ toy.calc "$2b$" 12 salt secret) with
            | Some (salt', chk) =>
                Return {| bcrypt.ident := "$2b$"; bcrypt.rounds := 12; bcrypt.salt := salt';
                          bcrypt.checksum := match chk with
                                             | EmptyString => None
                                             | _ => Some chk
                                             end |}
            | None => Raise MalformedHashError
            end
            = Return {| bcrypt.ident := "$2b$"; bcrypt.rounds := 12; bcrypt.salt := salt;
                        bcrypt.checksum := Some (toy.calc "$2b$" 12 salt secret) |}).
    rewrite <- Hlen at 1. rewrite toy_split_at_app. reflexivity.
Qed.

(** ** auth.py: passwords *)

Section PasswordFacts.
Context {B : Backend}.

Lemma str_len_le_bytes_len (s : string) : auth.str_len s <= auth.bytes_len s.
Proof.
  unfold auth.bytes_len. induction s as [|c s IH]; [simpl; lia|].
  cbn [auth.str_len String.length]. rewrite Nat2Z.inj_succ.
  destruct (auth.utf8_continuation c); lia.
Qed.

Lemma acceptable_secret_iff (secret : string) :
  acceptable_secret secret = true <->
  (auth.MAX_PASSWORD_SIZE <? auth.bytes_len secret) = false /\
  auth.contains_nul secret = false.
Proof.
  unfold acceptable_secret.
  rewrite andb_true_iff, negb_true_iff, Z.leb_le, Z.ltb_ge. reflexivity.
Qed.

Lemma acceptable_secret_str_len (secret : string) :
  acceptable_secret secret = true ->
  (auth.MAX_PASSWORD_SIZE <? auth.str_len secret) = false.
Proof.
  intros H. apply acceptable_secret_iff in H as [H _].
  apply Z.ltb_ge in H. apply Z.ltb_ge.
  pose proof (str_len_le_bytes_len secret). lia.
Qed.

Lemma calc_checksum_acceptable (ident : string) (rounds : Z) (salt secret : string) :
  acceptable_secret secret = true ->
  auth.calc_checksum ident rounds salt secret
  = Return (bcrypt_calc_checksum ident rounds salt secret).
Proof.
  intros H. apply acceptable_secret_iff in H as [H1 H2].
  unfold auth.calc_checksum. rewrite H1, H2. reflexivity.
Qed.

Lemma calc_checksum_rejected (ident : string) (rounds : Z) (salt secret : string) :
  acceptable_secret secret = false ->
  auth.calc_checksum ident rounds salt secret = Raise PasswordSizeError \/
  auth.calc_checksum ident rounds salt secret = Raise NullPasswordError.
Proof.
  intros H. unfold auth.calc_checksum.
  destruct (auth.MAX_PASSWORD_SIZE <? auth.bytes_len secret) eqn:H1; [left; reflexivity|].
  destruct (auth.contains_nul secret) eqn:H2; [right; reflexivity|].
  assert (acceptable_secret secret = true) by (apply acceptable_secret_iff; auto).
  congruence.
Qed.

Lemma hash_password_acceptable (salt password : string) :
  acceptable_secret password = true ->
  auth.hash_password salt password
  = Return ("$2b$12$" ++ salt ++ bcrypt_calc_checksum "$2b$" 12 salt password).
Proof.
  intros H. unfold auth.hash_password, auth.pwd_context_hash.
  rewrite (acceptable_secret_str_len password H), (calc_checksum_acceptable _ _ _ _ H).
  reflexivity.
Qed.

Lemma hash_password_rejected (salt password : string) :
  acceptable_secret password = false ->
  auth.hash_password salt password = Raise PasswordSizeError \/
  auth.hash_password salt password = Raise NullPasswordError.
Proof.
  intros H. unfold auth.hash_password, auth.pwd_context_hash.
  destruct (auth.MAX_PASSWORD_SIZE <? auth.str_len password); [left; reflexivity|].
  destruct (calc_checksum_rejected "$2b$" 12 salt password H) as [-> | ->]; auto.
Qed.

Lemma identify_new_digest (salt chk : string) :
  auth.identify ("$2b$12$" ++ salt ++ chk) = true.
Proof. reflexivity. Qed.

Lemma verify_password_digest (plain_password hashed_password : string)
    (h : bcrypt.t) (chk : string) :
  bcrypt_digest hashed_password h chk ->
  acceptable_secret plain_password = true ->
  auth.verify_password plain_password hashed_password
  = Return (String.eqb (bcrypt_calc_checksum (bcrypt.ident h) (bcrypt.rounds h)
                          (bcrypt.salt h) plain_password) chk).
Proof.
  intros (Hid & Hparse & Hchk) Hok.
  unfold auth.verify_password, auth.pwd_context_verify.
  rewrite Hid, (acceptable_secret_str_len _ Hok), Hparse. simpl.
  rewrite Hchk, (calc_checksum_acceptable _ _ _ _ Hok). reflexivity.
Qed.

Lemma new_digest_is_digest {L : BackendLaws B} (salt password : string) :
  String.length salt = 22%nat ->
  bcrypt_digest ("$2b$12$" ++ salt ++ bcrypt_calc_checksum "$2b$" 12 salt password)
    {| bcrypt.ident := "$2b$"; bcrypt.rounds := 12; bcrypt.salt := salt;
       bcrypt.checksum := Some (bcrypt_calc_checksum "$2b$" 12 salt password) |}
    (bcrypt_calc_checksum "$2b$" 12 salt password).
Proof.
  intros Hlen. split; [apply identify_new_digest|].
  split; [apply (bcrypt_from_to_string salt password Hlen) | reflexivity].
Qed.

Lemma verify_password_hash_password {L : BackendLaws B} (salt password digest : string) :
  String.length salt = 22%nat ->
  auth.hash_password salt password = Return digest ->
  auth.verify_password password digest = Return true.
Proof.
  intros Hlen Hhash.
  destruct (acceptable_secret password) eqn:Hok.
  - rewrite (hash_password_acceptable salt password Hok) in Hhash.
    assert (Hd : digest
                 = "$2b$12$" ++ salt ++ bcrypt_calc_checksum "$2b$" 12 salt password)
      by congruence.
    rewrite Hd.
    rewrite (verify_password_digest _ _ _ _ (new_digest_is_digest salt password Hlen) Hok).
    simpl. rewrite String.eqb_refl. reflexivity.
  - destruct (hash_password_rejected salt password Hok) as [E | E];
      rewrite E in Hhash; discriminate.
Qed.


End PasswordFacts.





(** ** auth.py: session tokens *)

Section TokenFacts.
Context {B : Backend}.

(** What [loads] does, in the words of [signature_valid], [issued_at] and
    [embedded_payload]. *)
Lemma loads_bad_signature (clock : N) (token : string) :
  signature_valid token = false ->
  exists e, auth.loads clock token auth.SESSION_MAX_AGE = Raise e /\
            isinstance_BadSignature e = true.
Proof.
  unfold signature_valid, auth.loads, auth.TimestampSigner_unsign, auth.Signer_unsign.
  destruct (rsplit token) as [[value sig]|]; intros H.
  - rewrite H. destruct (rsplit value) as [[v ts]|]; eexists; split; reflexivity.
  - simpl. eexists; split; reflexivity.
Qed.

Lemma loads_valid (clock issued : N) (token : string) :
  signature_valid token = true ->
  issued_at token = Some issued ->
  auth.loads clock token auth.SESSION_MAX_AGE
  = if elapsed clock issued >? auth.SESSION_MAX_AGE then auth.raise_SignatureExpired issued
    else if elapsed clock issued <? 0 then auth.raise_SignatureExpired issued
    else match embedded_payload token with
         | Some payload => Return payload
         | None => Raise BadPayload
         end.
Proof.
  unfold signature_valid, issued_at, embedded_payload, elapsed.
  unfold auth.loads, auth.TimestampSigner_unsign, auth.Signer_unsign.
  destruct (rsplit token) as [[value sig]|]; [|discriminate].
  intros Hsig. rewrite Hsig.
  destruct (rsplit value) as [[payload ts]|]; [|discriminate].
  intros Hts. rewrite Hts.
  unfold auth.raise_SignatureExpired, auth.timestamp_to_datetime.
  destruct (Z.of_N clock - Z.of_N issued >? auth.SESSION_MAX_AGE);
    [destruct (issued <=? auth.MAX_DATETIME)%N; reflexivity|].
  destruct (Z.of_N clock - Z.of_N issued <? 0);
    [destruct (issued <=? auth.MAX_DATETIME)%N; reflexivity|].
  reflexivity.
Qed.

Lemma loads_no_timestamp (clock : N) (token : string) :
  signature_valid token = true ->
  issued_at token = None ->
  auth.loads clock token auth.SESSION_MAX_AGE = Raise BadTimeSignature.
Proof.
  unfold signature_valid, issued_at.
  unfold auth.loads, auth.TimestampSigner_unsign, auth.Signer_unsign.
  destruct (rsplit token) as [[value sig]|]; [|discriminate].
  intros Hsig. rewrite Hsig.
  destruct (rsplit value) as [[payload ts]|]; [|reflexivity].
  intros Hts. rewrite Hts. reflexivity.
Qed.

Lemma raise_SignatureExpired_outcome (issued : N) :
  auth.raise_SignatureExpired (A := json) issued
  = if (issued <=? auth.MAX_DATETIME)%N then Raise SignatureExpired else Raise ValueError.
Proof.
  unfold auth.raise_SignatureExpired, auth.timestamp_to_datetime.
  destruct (issued <=? auth.MAX_DATETIME)%N; reflexivity.
Qed.

Lemma signature_valid_create {L : BackendLaws B} (issued : N) (user_id : Z) :
  signature_valid (auth.create_session_token issued user_id) = true.
Proof.
  unfold signature_valid, auth.create_session_token, auth.dumps.
  rewrite rsplit_app_sep by apply get_signature_no_sep.
  apply verify_get_signature.
Qed.

Lemma issued_at_create {L : BackendLaws B} (issued : N) (user_id : Z) :
  issued_at (auth.create_session_token issued user_id) = Some issued.
Proof.
  unfold issued_at, auth.create_session_token, auth.dumps.
  rewrite rsplit_app_sep by apply get_signature_no_sep.
  rewrite rsplit_app_sep by apply encode_timestamp_no_sep.
  apply decode_encode_timestamp.
Qed.

Lemma embedded_payload_create {L : BackendLaws B} (issued : N) (user_id : Z) :
  embedded_payload (auth.create_session_token issued user_id)
  = Some (JObj [("user_id", user_id)]).
Proof.
  unfold embedded_payload, auth.create_session_token, auth.dumps.
  rewrite rsplit_app_sep by apply get_signature_no_sep.
  rewrite rsplit_app_sep by apply encode_timestamp_no_sep.
  apply load_dump_session.
Qed.

Lemma read_issued_token {L : BackendLaws B} (now issued : N) (user_id : Z) :
  0 <= elapsed now issued <= auth.SESSION_MAX_AGE ->
  auth.read_session_token now (auth.create_session_token issued user_id)
  = Return (Some user_id).
Proof.
  intros [Hlo Hhi]. unfold auth.read_session_token.
  rewrite (loads_valid now issued) by
    (apply signature_valid_create || apply issued_at_create).
  rewrite embedded_payload_create.
  destruct (elapsed now issued >? auth.SESSION_MAX_AGE) eqn:E1.
  { apply Z.gtb_lt in E1. lia. }
  destruct (elapsed now issued <? 0) eqn:E2.
  { apply Z.ltb_lt in E2. lia. }
  reflexivity.
Qed.

(** C3. A token read no later than [SESSION_MAX_AGE] seconds after it was
    issued (in particular at once) gives back the user identifier it was
    issued for. *)
Theorem read_session_token_create_session_token
    {L : BackendLaws B} (issued now : N) (user_id : Z) :
  0 <= elapsed now issued <= auth.SESSION_MAX_AGE ->
  auth.read_session_token now (auth.create_session_token issued user_id)
  = Return (Some user_id).
Proof.
  intros [Hlo Hhi]. unfold auth.read_session_token.
  rewrite (loads_valid now issued) by
    (apply signature_valid_create || apply issued_at_create).
  rewrite embedded_payload_create.
  destruct (elapsed now issued >? auth.SESSION_MAX_AGE) eqn:E1.
  { apply Z.gtb_lt in E1. lia. }
  destruct (elapsed now issued <? 0) eqn:E2.
  { apply Z.ltb_lt in E2. lia. }
  reflexivity.
Qed.

(** C4 (as amended). For every token, what [read_session_token] does is
    settled by four readings of it. The signature does not verify: [None].
    The signature verifies and there is no readable issue time: [None]. The
    issue time is more than [SESSION_MAX_AGE] (14 days) back, or it lies
    ahead: [None], unless the issue time is past the last date [datetime] can
    hold, when [ValueError] comes out. Otherwise the payload decides: an
    object gives its ["user_id"] ([None] when it has none), any other JSON
    value raises [AttributeError], and a payload that cannot be decoded
    raises [BadPayload]. *)
Theorem read_session_token_spec (clock : N) (token : string) :
  auth.SESSION_MAX_AGE = 14 * 86400 /\
  (signature_valid token = false ->
   auth.read_session_token clock token = Return None) /\
  (signature_valid token = true ->
   issued_at token = None ->
   auth.read_session_token clock token = Return None) /\
  (forall issued,
      signature_valid token = true ->
      issued_at token = Some issued ->
      elapsed clock issued > auth.SESSION_MAX_AGE \/ elapsed clock issued < 0 ->
      auth.read_session_token clock token
      = if (issued <=? auth.MAX_DATETIME)%N then Return None else Raise ValueError) /\
  (forall issued,
      signature_valid token = true ->
      issued_at token = Some issued ->
      0 <= elapsed clock issued <= auth.SESSION_MAX_AGE ->
      auth.read_session_token clock token
      = match embedded_payload token with
        | Some (JObj d) => Return (dict_get d "user_id")
        | Some JOther => Raise AttributeError
        | None => Raise BadPayload
        end).
Proof.
  split; [reflexivity|]. split; [|split; [|split]].
  - intros Hsig. unfold auth.read_session_token.
    destruct (loads_bad_signature clock token Hsig) as (e & -> & He).
    rewrite He. reflexivity.
  - intros Hsig Hts. unfold auth.read_session_token.
    rewrite (loads_no_timestamp clock token Hsig Hts). reflexivity.
  - intros issued Hsig Hts Hage. unfold auth.read_session_token.
    rewrite (loads_valid clock issued token Hsig Hts).
    assert (Hout : (if elapsed clock issued >? auth.SESSION_MAX_AGE
                    then auth.raise_SignatureExpired issued
                    else if elapsed clock issued <? 0
                         then auth.raise_SignatureExpired issued
                         else match embedded_payload token with
                              | Some payload => Return payload
                              | None => Raise BadPayload
                              end)
                   = auth.raise_SignatureExpired issued).
    { destruct (elapsed clock issued >? auth.SESSION_MAX_AGE) eqn:E1; [reflexivity|].
      destruct (elapsed clock issued <? 0) eqn:E2; [reflexivity|].
      rewrite Z.gtb_ltb in E1. apply Z.ltb_ge in E1, E2. lia. }
    rewrite Hout, raise_SignatureExpired_outcome.
    destruct (issued <=? auth.MAX_DATETIME)%N; reflexivity.
  - intros issued Hsig Hts [Hlo Hhi]. unfold auth.read_session_token.
    rewrite (loads_valid clock issued token Hsig Hts).
    destruct (elapsed clock issued >? auth.SESSION_MAX_AGE) eqn:E1.
    { apply Z.gtb_lt in E1. lia. }
    destruct (elapsed clock issued <? 0) eqn:E2.
    { apply Z.ltb_lt in E2. lia. }
    destruct (embedded_payload token) as [[d|]|]; reflexivity.
Qed.

End TokenFacts.

Lemma read_session_token_create_session_token_witness :
  0 <= elapsed 3 3 <= auth.SESSION_MAX_AGE /\
  auth.read_session_token (B := toy.backend) 3 (auth.create_session_token (B := toy.backend) 3 7)
  = Return (Some 7).
Proof.
  assert (H : 0 <= elapsed 3 3 <= auth.SESSION_MAX_AGE) by (vm_compute; split; discriminate).
  split; [exact H|].
  exact (read_session_token_create_session_token (B := toy.backend) 3 3 7 H).
Defined.

(** C4, a token on which the claim fails: its signature verifies and it
    was issued this very second, yet [read_session_token] raises instead of
    returning an identifier, because the payload is a list. *)
Lemma read_session_token_raises_on_signed_list :
  signature_valid (B := toy.backend) toy.token_with_list_payload = true /\
  issued_at (B := toy.backend) toy.token_with_list_payload = Some 3%N /\
  elapsed 3 3 = 0 /\
  auth.read_session_token (B := toy.backend) 3 toy.token_with_list_payload
  = Raise AttributeError.
Proof. repeat split. Qed.

Lemma read_session_token_spec_witness :
  auth.read_session_token (B := toy.backend) 3 "+7.111.forged" = Return None /\
  auth.read_session_token (B := toy.backend) 3 "+7.s11" = Return None /\
  auth.read_session_token (B := toy.backend) 1209604
    (auth.create_session_token (B := toy.backend) 3 7) = Return None /\
  auth.read_session_token (B := toy.backend) 2
    (auth.create_session_token (B := toy.backend) 3 7) = Return None /\
  auth.read_session_token (B := toy.backend) 1209603
    (auth.create_session_token (B := toy.backend) 3 7) = Return (Some 7) /\
  auth.read_session_token (B := toy.backend) 3 toy.token_with_list_payload
  = Raise AttributeError.
Proof.
  split; [|split; [|split; [|split; [|split]]]].
  - exact (proj1 (proj2 (read_session_token_spec (B := toy.backend) 3 "+7.111.forged"))
                 eq_refl).
  - exact (proj1 (proj2 (proj2 (read_session_token_spec (B := toy.backend) 3 "+7.s11")))
                 eq_refl eq_refl).
  - refine (proj1 (proj2 (proj2 (proj2 (read_session_token_spec (B := toy.backend) 1209604
                                           (auth.create_session_token (B := toy.backend) 3 7)))))
                  3%N eq_refl eq_refl _).
    left. vm_compute. reflexivity.
  - refine (proj1 (proj2 (proj2 (proj2 (read_session_token_spec (B := toy.backend) 2
                                           (auth.create_session_token (B := toy.backend) 3 7)))))
                  3%N eq_refl eq_refl _).
    right. vm_compute. reflexivity.
  - refine (proj2 (proj2 (proj2 (proj2 (read_session_token_spec (B := toy.backend) 1209603
                                           (auth.create_session_token (B := toy.backend) 3 7)))))
                  3%N eq_refl eq_refl _).
    vm_compute. split; discriminate.
  - refine (proj2 (proj2 (proj2 (proj2 (read_session_token_spec (B := toy.backend) 3
                                           toy.token_with_list_payload))))
                  3%N eq_refl eq_refl _).
    vm_compute. split; discriminate.
Defined.

(** ** Queries *)

Lemma first_filter_none {A : Type} (f : A -> bool) (l : list A) :
  (forall x, In x l -> f x = false) -> first (filter f l) = None.
Proof.
  induction l as [|a l IH]; intros H; simpl; [reflexivity|].
  rewrite (H a (or_introl eq_refl)). apply IH.
  intros x Hx. apply H. right. exact Hx.
Qed.

Lemma first_filter_some {A : Type} (f : A -> bool) (l : list A) (x : A) :
  first (filter f l) = Some x -> In x l /\ f x = true.
Proof.
  intros H. apply filter_In. destruct (filter f l) as [|y ys]; [discriminate|].
  injection H as ->. left. reflexivity.
Qed.

Lemma first_filter_app_last {A : Type} (f : A -> bool) (l : list A) (x : A) :
  (forall y, In y l -> f y = false) -> f x = true ->
  first (filter f (l ++ [x])) = Some x.
Proof.
  induction l as [|a l IH]; intros H Hx; simpl.
  - rewrite Hx. reflexivity.
  - rewrite (H a (or_introl eq_refl)). apply IH; [|exact Hx].
    intros y Hy. apply H. right. exact Hy.
Qed.

Lemma query_group_none (db : DB) (group_id user_id : Z) :
  group_absent db group_id \/ group_foreign db group_id user_id ->
  query_group db group_id user_id = None.
Proof.
  intros H. apply first_filter_none. intros g Hg.
  apply andb_false_iff.
  destruct (DebtGroup.id g =? group_id) eqn:E; [right | left; reflexivity].
  apply Z.eqb_eq in E. apply Z.eqb_neq.
  destruct H as [Habs | [_ Hfor]].
  - exfalso. exact (Habs g Hg E).
  - exact (Hfor g Hg E).
Qed.

Lemma query_group_some (db : DB) (group_id user_id : Z) (g : DebtGroup.t) :
  query_group db group_id user_id = Some g ->
  In g (debt_groups db) /\ DebtGroup.id g = group_id /\ DebtGroup.user_id g = user_id.
Proof.
  intros H. apply first_filter_some in H as [Hin Hf].
  apply andb_true_iff in Hf as [H1 H2].
  apply Z.eqb_eq in H1, H2. auto.
Qed.

Lemma query_item_none (db : DB) (item_id group_id user_id : Z) :
  item_absent db item_id \/ item_foreign db item_id user_id ->
  query_item db item_id group_id user_id = None.
Proof.
  intros H. apply first_filter_none. intros i Hi.
  destruct (DebtItem.id i =? item_id) eqn:E; [|reflexivity].
  apply Z.eqb_eq in E.
  destruct H as [Habs | [_ Hfor]].
  - exfalso. exact (Habs i Hi E).
  - pose proof (Hfor i Hi E) as Hne. apply Z.eqb_neq in Hne.
    rewrite Hne. apply andb_false_r.
Qed.

Lemma query_item_some (db : DB) (item_id group_id user_id : Z) (i : DebtItem.t) :
  query_item db item_id group_id user_id = Some i ->
  In i (debt_items db) /\ DebtItem.id i = item_id /\
  DebtItem.group_id i = group_id /\ DebtItem.user_id i = user_id.
Proof.
  intros H. apply first_filter_some in H as [Hin Hf].
  apply andb_true_iff in Hf as [H12 H3]. apply andb_true_iff in H12 as [H1 H2].
  apply Z.eqb_eq in H1, H2, H3. auto.
Qed.

(** ** main.py: resolving the session *)

Section SessionFacts.
Context {B : Backend}.

Lemma signature_valid_truthy (token : string) :
  signature_valid token = true -> str_truthy token = true.
Proof. destruct token; [discriminate | reflexivity]. Qed.

(** C10. A request whose token has a signature that verifies and is not
    expired, but whose payload has ["user_id": 0] or no ["user_id"] at all,
    is answered with 401 by [get_current_user], whatever the users table
    holds: [read_session_token] returns [0] or [None], and both are falsy. *)
Theorem get_current_user_falsy_user_id
    (env : Env) (request : Request) (db : DB) (token : string) (issued : N)
    (d : list (string * Z)) :
  cookies_get (cookies request) auth.SESSION_COOKIE = Some token ->
  signature_valid token = true ->
  issued_at token = Some issued ->
  0 <= elapsed (clock env) issued <= auth.SESSION_MAX_AGE ->
  embedded_payload token = Some (JObj d) ->
  dict_get d "user_id" = Some 0 \/ dict_get d "user_id" = None ->
  auth.read_session_token (clock env) token = Return (dict_get d "user_id") /\
  main.get_current_user env request db = Raise (HTTPException 401 []).
Proof.
  intros Hcookie Hsig Hts [Hlo Hhi] Hpayload Hfalsy.
  assert (Hread : auth.read_session_token (clock env) token
                  = Return (dict_get d "user_id")).
  { unfold auth.read_session_token.
    rewrite (loads_valid (clock env) issued token Hsig Hts), Hpayload.
    destruct (elapsed (clock env) issued >? auth.SESSION_MAX_AGE) eqn:E1.
    { apply Z.gtb_lt in E1. lia. }
    destruct (elapsed (clock env) issued <? 0) eqn:E2.
    { apply Z.ltb_lt in E2. lia. }
    reflexivity. }
  split; [exact Hread|].
  unfold main.get_current_user.
  rewrite Hcookie, (signature_valid_truthy token Hsig), Hread. simpl.
  destruct Hfalsy as [-> | ->]; reflexivity.
Qed.

End SessionFacts.

Lemma get_current_user_falsy_user_id_witness :
  main.get_current_user (B := toy.backend) toy.env0
    (toy.request_with (toy.token_for 0)) toy.db_user0
  = Raise (HTTPException 401 []) /\
  main.get_current_user (B := toy.backend) toy.env0
    (toy.request_with toy.token_without_user_id) toy.db_user0
  = Raise (HTTPException 401 []).
Proof.
  assert (Hage : 0 <= elapsed (clock toy.env0) 3 <= auth.SESSION_MAX_AGE)
    by (vm_compute; split; discriminate).
  split.
  - exact (proj2 (get_current_user_falsy_user_id (B := toy.backend) toy.env0
                    (toy.request_with (toy.token_for 0)) toy.db_user0
                    (toy.token_for 0) 3%N [("user_id", 0)]
                    eq_refl eq_refl eq_refl Hage eq_refl (or_introl eq_refl))).
  - exact (proj2 (get_current_user_falsy_user_id (B := toy.backend) toy.env0
                    (toy.request_with toy.token_without_user_id) toy.db_user0
                    toy.token_without_user_id 3%N []
                    eq_refl eq_refl eq_refl Hage eq_refl (or_intror eq_refl))).
Defined.

(** ** main.py: the scoped handlers *)

Section HandlerFacts.
Context {B : Backend}.

(** C1. For a caller authenticated as [user]: when no group has the
    identifier, or the group with it belongs to another user, [group_detail],
    [add_item] and [delete_group] all raise the same bare 404 and leave the
    store as it is; so does [delete_item] when no item has the identifier or
    the item belongs to another user. The one lookup each handler makes is
    filtered by the identifier and by the caller's [id] together: whatever it
    finds has both. *)
Theorem scoped_handlers_not_found
    (env : Env) (request : Request) (db : DB) (user : User.t)
    (group_id item_id : Z) (amount : float) (note : option string) :
  main.require_user env request db = Return user ->
  (group_absent db group_id \/ group_foreign db group_id (User.id user) ->
   main.group_detail env request group_id db = (Raise (HTTPException 404 []), db) /\
   main.add_item env request group_id amount note db = (Raise (HTTPException 404 []), db) /\
   main.delete_group env request group_id db = (Raise (HTTPException 404 []), db)) /\
  (item_absent db item_id \/ item_foreign db item_id (User.id user) ->
   main.delete_item env request group_id item_id db = (Raise (HTTPException 404 []), db)) /\
  (forall g, query_group db group_id (User.id user) = Some g ->
             In g (debt_groups db) /\ DebtGroup.id g = group_id /\
             DebtGroup.user_id g = User.id user) /\
  (forall i, query_item db item_id group_id (User.id user) = Some i ->
             In i (debt_items db) /\ DebtItem.id i = item_id /\
             DebtItem.group_id i = group_id /\ DebtItem.user_id i = User.id user).
Proof.
  intros Hauth. split; [|split; [|split]].
  - intros H. apply (query_group_none db group_id (User.id user)) in H.
    unfold main.group_detail, main.add_item, main.delete_group, main.with_user.
    rewrite Hauth, H. auto.
  - intros H. apply (query_item_none db item_id group_id (User.id user)) in H.
    unfold main.delete_item, main.with_user. rewrite Hauth, H. reflexivity.
  - apply query_group_some.
  - apply query_item_some.
Qed.


End HandlerFacts.

Lemma scoped_handlers_not_found_witness :
  main.group_detail (B := toy.backend) toy.env0 toy.as_alice 2 toy.db_two_groups
  = (Raise (HTTPException 404 []), toy.db_two_groups) /\
  main.delete_group (B := toy.backend) toy.env0 toy.as_alice 99 toy.db_two_groups
  = (Raise (HTTPException 404 []), toy.db_two_groups) /\
  main.delete_item (B := toy.backend) toy.env0 toy.as_alice 2 77 toy.db_two_groups
  = (Raise (HTTPException 404 []), toy.db_two_groups).
Proof.
  assert (Hauth : main.require_user (B := toy.backend) toy.env0 toy.as_alice toy.db_two_groups
                  = Return toy.alice) by reflexivity.
  assert (Hforeign : group_foreign toy.db_two_groups 2 (User.id toy.alice)).
  { split.
    - eexists. split; [right; left; reflexivity | reflexivity].
    - intros g Hg Hid. cbv in Hg. destruct Hg as [<- | [<- | []]]; cbv in Hid |- *; congruence. }
  assert (Habsent : group_absent toy.db_two_groups 99).
  { intros g Hg. cbv in Hg. destruct Hg as [<- | [<- | []]]; cbv; congruence. }
  assert (Hitem : item_absent toy.db_two_groups 77).
  { intros i Hi. cbv in Hi. destruct Hi as [<- | [<- | [<- | []]]]; cbv; congruence. }
  split; [|split].
  - exact (proj1 (proj1 (scoped_handlers_not_found (B := toy.backend) toy.env0 toy.as_alice
                           toy.db_two_groups toy.alice 2 77 1%float None Hauth)
                        (or_intror Hforeign))).
  - exact (proj2 (proj2 (proj1 (scoped_handlers_not_found (B := toy.backend) toy.env0
                                  toy.as_alice toy.db_two_groups toy.alice 99 77 1%float None
                                  Hauth)
                               (or_introl Habsent)))).
  - exact (proj1 (proj2 (scoped_handlers_not_found (B := toy.backend) toy.env0 toy.as_alice
                           toy.db_two_groups toy.alice 2 77 1%float None Hauth))
                 (or_introl Hitem)).
Defined.



(** ** main.py: registration *)

Section RegisterFacts.
Context {B : Backend}.

Lemma first_filter_exists {A : Type} (f : A -> bool) (l : list A) :
  (exists x, In x l /\ f x = true) -> exists y, first (filter f l) = Some y.
Proof.
  intros (x & Hin & Hf).
  assert (H : In x (filter f l)) by (apply filter_In; auto).
  destruct (filter f l) as [|y ys]; [destruct H | eexists; reflexivity].
Qed.

Lemma register_conflict (env : Env) (username password : string) (db : DB) :
  username_taken db username ->
  main.register env username password db
  = (Return (TemplateResponse "register.html"
               (FormContext (Some "Это имя уже занято.")) 400), db).
Proof.
  intros (u & Hin & Hu). unfold main.register.
  destruct (first_filter_exists (fun u => String.eqb (User.username u) username) (users db))
    as [existing ->]; [|reflexivity].
  exists u. split; [exact Hin | now apply String.eqb_eq].
Qed.

Lemma username_free_filter (db : DB) (username : string) :
  ~ username_taken db username ->
  forall u, In u (users db) -> String.eqb (User.username u) username = false.
Proof.
  intros Hfree u Hu. apply String.eqb_neq. intros E. apply Hfree. exists u. auto.
Qed.

(** C5 (as amended). With the username already taken, [register] answers
    with the registration form, the conflict message and status 400, and the
    store is untouched. With a fresh username and a password that the hasher
    lets through (at most 4096 bytes, no NUL byte) it appends the user with
    the digest of [hash_password] and redirects (302) to the dashboard,
    setting the session cookie (http-only, same-site lax) to a token that
    [read_session_token] reads back as the new user's [id]; after that,
    registering the same name again is a conflict, and a login with the first
    password still succeeds. With a fresh username and a password that the
    hasher refuses, the hasher's exception comes out and nothing is stored. *)
Theorem register_conflict_or_create
    {L : BackendLaws B} (env env' env'' : Env)
    (username password password' : string) (db : DB) :
  (username_taken db username ->
   main.register env username password db
   = (Return (TemplateResponse "register.html"
                (FormContext (Some "Это имя уже занято.")) 400), db)) /\
  (~ username_taken db username ->
   acceptable_secret password = true ->
   let digest :=
     "$2b$12$" ++ salt env ++ bcrypt_calc_checksum "$2b$" 12 (salt env) password in
   let user := {| User.id := next_id (map User.id (users db));
                  User.username := username;
                  User.password_hash := digest |} in
   let db' := {| users := users db ++ [user];
                 debt_groups := debt_groups db;
                 debt_items := debt_items db |} in
   let token := auth.create_session_token (clock env) (User.id user) in
   auth.hash_password (salt env) password = Return digest /\
   main.register env username password db
   = (Return (RedirectResponse "/dashboard" 302
                [{| key := "session"; value := token;
                    httponly := true; samesite := "lax" |}] []), db') /\
   auth.read_session_token (clock env) token = Return (Some (User.id user)) /\
   (String.length (salt env) = 22%nat ->
    main.register env' username password' db'
    = (Return (TemplateResponse "register.html"
                 (FormContext (Some "Это имя уже занято.")) 400), db') /\
    main.login env'' username password db'
    = (Return (RedirectResponse "/dashboard" 302
                 [{| key := "session";
                     value := auth.create_session_token (clock env'') (User.id user);
                     httponly := true;
                     samesite := "lax" |}] []), db'))) /\
  (~ username_taken db username ->
   acceptable_secret password = false ->
   main.register env username password db = (Raise PasswordSizeError, db) \/
   main.register env username password db = (Raise NullPasswordError, db)).
Proof.
  split; [apply register_conflict|]. split.
  - intros Hfree Hok digest user db' token.
    assert (Hhash : auth.hash_password (salt env) password = Return digest)
      by (apply hash_password_acceptable; exact Hok).
    split; [exact Hhash|]. split; [|split; [|intros Hlen; split]].
    + unfold main.register.
      rewrite first_filter_none by (apply username_free_filter; exact Hfree).
      rewrite Hhash. reflexivity.
    + apply read_issued_token. unfold elapsed. unfold auth.SESSION_MAX_AGE. lia.
    + apply register_conflict. exists user. split; [|reflexivity].
      simpl. apply in_or_app. right. left. reflexivity.
    + unfold main.login. simpl users.
      rewrite first_filter_app_last;
        [| apply username_free_filter; exact Hfree | apply String.eqb_refl].
      simpl User.password_hash.
      rewrite (verify_password_hash_password (salt env) password digest Hlen Hhash).
      reflexivity.
  - intros Hfree Hbad. unfold main.register.
    rewrite first_filter_none by (apply username_free_filter; exact Hfree).
    destruct (hash_password_rejected (salt env) password Hbad) as [-> | ->]; auto.
Qed.

End RegisterFacts.

(** C5, a registration on which the claim fails: the username is fresh, and
    yet no user is created and no redirect is sent, because the password
    holds a NUL byte and the hasher refuses it. *)
Lemma register_raises_on_nul_password :
  ~ username_taken toy.db_alice "mallory" /\
  main.register (B := toy.backend) toy.env0 "mallory" toy.nul_password toy.db_alice
  = (Raise NullPasswordError, toy.db_alice).
Proof.
  split; [|reflexivity].
  intros [u [Hu E]]. cbv in Hu. destruct Hu as [<- | []]. discriminate E.
Qed.

Lemma register_conflict_or_create_witness :
  main.register (B := toy.backend) toy.env1 "alice" "other" toy.db_alice
  = (Return (TemplateResponse "register.html"
               (FormContext (Some "Это имя уже занято.")) 400), toy.db_alice) /\
  main.register (B := toy.backend) toy.env0 "alice" "pw" empty_db
  = (Return (RedirectResponse "/dashboard" 302
               [{| key := "session"; value := toy.token_for 1;
                   httponly := true; samesite := "lax" |}] []), toy.db_alice) /\
  auth.read_session_token (B := toy.backend) 3 (toy.token_for 1) = Return (Some 1) /\
  fst (main.login (B := toy.backend) toy.env0 "alice" "pw" toy.db_alice)
  = Return (RedirectResponse "/dashboard" 302
              [{| key := "session"; value := toy.token_for 1;
                  httponly := true; samesite := "lax" |}] []) /\
  (main.register (B := toy.backend) toy.env0 "mallory" toy.nul_password toy.db_alice
   = (Raise PasswordSizeError, toy.db_alice) \/
   main.register (B := toy.backend) toy.env0 "mallory" toy.nul_password toy.db_alice
   = (Raise NullPasswordError, toy.db_alice)).
Proof.
  assert (Htaken : username_taken toy.db_alice "alice").
  { exists toy.alice. split; [left|]; reflexivity. }
  assert (Hfree : ~ username_taken empty_db "alice").
  { intros [u [[] _]]. }
  assert (Hfree' : ~ username_taken toy.db_alice "mallory").
  { intros [u [Hu E]]. cbv in Hu. destruct Hu as [<- | []]. discriminate E. }
  pose proof (register_conflict_or_create (B := toy.backend) toy.env1 toy.env0 toy.env0
                "alice" "other" "pw" toy.db_alice) as Hconflict.
  pose proof (register_conflict_or_create (B := toy.backend) toy.env0 toy.env1 toy.env0
                "alice" "pw" "other" empty_db) as Hcreate.
  pose proof (register_conflict_or_create (B := toy.backend) toy.env0 toy.env1 toy.env0
                "mallory" toy.nul_password "other" toy.db_alice) as Hrefused.
  split; [exact (proj1 Hconflict Htaken)|].
  destruct (proj1 (proj2 Hcreate) Hfree eq_refl) as (_ & Hregister & Hread & Hafter).
  split; [exact Hregister|]. split; [exact Hread|].
  split; [exact (f_equal fst (proj2 (Hafter eq_refl)))|].
  exact (proj2 (proj2 Hrefused) Hfree' eq_refl).
Defined.

(** ** Primary keys *)

Lemma next_id_fresh (ids : list Z) (x : Z) : In x ids -> x < next_id ids.
Proof.
  unfold next_id. induction ids as [|y ids IH]; cbn [fold_right In]; [intros []|].
  intros [-> | H]; [lia|]. specialize (IH H). lia.
Qed.

Lemma NoDup_map_snoc {A : Type} (f : A -> Z) (l : list A) (y : A) :
  NoDup (map f l) -> (forall x, In x l -> f x <> f y) -> NoDup (map f (l ++ [y])).
Proof.
  intros Hnd Hfresh. rewrite map_app. apply NoDup_app; [exact Hnd | |].
  - simpl. constructor; [intros [] | constructor].
  - intros a Ha [<- | []]. apply in_map_iff in Ha as (x & Hx & Hin).
    exact (Hfresh x Hin Hx).
Qed.

Lemma NoDup_map_filter {A : Type} (f : A -> Z) (p : A -> bool) (l : list A) :
  NoDup (map f l) -> NoDup (map f (filter p l)).
Proof.
  induction l as [|a l IH]; simpl; intros Hnd; [constructor|].
  inversion Hnd as [|? ? Hnotin Hnd']; subst.
  destruct (p a); simpl; [constructor|]; auto.
  intros Hin. apply Hnotin. apply in_map_iff in Hin as (x & Hx & Hin).
  apply in_map_iff. exists x. split; [exact Hx|]. apply filter_In in Hin. tauto.
Qed.

Lemma NoDup_map_In_eq {A : Type} (f : A -> Z) (l : list A) (x y : A) :
  NoDup (map f l) -> In x l -> In y l -> f x = f y -> x = y.
Proof.
  induction l as [|a l IH]; simpl; intros Hnd Hx Hy E; [destruct Hx|].
  inversion Hnd as [|? ? Hnotin Hnd']; subst.
  destruct Hx as [-> | Hx], Hy as [-> | Hy]; auto.
  - exfalso. apply Hnotin. rewrite E. now apply in_map.
  - exfalso. apply Hnotin. rewrite <- E. now apply in_map.
Qed.

(** ** main.py: deleting a group *)

Lemma db_delete_group_groups (db : DB) (g : DebtGroup.t) :
  group_absent (db_delete_group db g) (DebtGroup.id g).
Proof.
  intros g' Hin E. simpl in Hin. apply filter_In in Hin as [_ Hne].
  rewrite E, Z.eqb_refl in Hne. discriminate.
Qed.

Lemma db_delete_group_item_ids (db : DB) (g : DebtGroup.t) (i : DebtItem.t) :
  In i (debt_items db) -> DebtItem.group_id i = DebtGroup.id g ->
  item_absent (db_delete_group db g) (DebtItem.id i).
Proof.
  intros Hi Hg i' Hin E. simpl in Hin. apply filter_In in Hin as [_ Hkept].
  apply negb_true_iff in Hkept.
  assert (Hex : existsb (Z.eqb (DebtItem.id i'))
                  (map DebtItem.id
                     (filter (fun i => DebtItem.group_id i =? DebtGroup.id g) (debt_items db)))
                = true); [|congruence].
  apply existsb_exists. exists (DebtItem.id i). split; [|now apply Z.eqb_eq].
  apply in_map. apply filter_In. split; [exact Hi | now apply Z.eqb_eq].
Qed.

Lemma db_delete_group_items (db : DB) (g : DebtGroup.t) (i' : DebtItem.t) :
  In i' (debt_items (db_delete_group db g)) ->
  In i' (debt_items db) /\ DebtItem.group_id i' <> DebtGroup.id g.
Proof.
  intros Hin. pose proof Hin as Hin'. simpl in Hin'.
  apply filter_In in Hin' as [Hold _]. split; [exact Hold|].
  intros E. exact (db_delete_group_item_ids db g i' Hold E i' Hin eq_refl).
Qed.

Lemma query_group_owned (db : DB) (g : DebtGroup.t) :
  In g (debt_groups db) ->
  exists g', query_group db (DebtGroup.id g) (DebtGroup.user_id g) = Some g'.
Proof.
  intros Hin. apply first_filter_exists. exists g. split; [exact Hin|].
  now rewrite !Z.eqb_refl.
Qed.

Section DeleteGroupFacts.
Context {B : Backend}.

(** C7. When the caller owns a group with the given identifier,
    [delete_group] redirects to the dashboard and the store it leaves has no
    group with that identifier, no item of that group, and no item under the
    identifier of any item the group had; so afterwards [group_detail] on the
    group and [delete_item] on any of its former items are 404 for every
    caller. *)
Theorem delete_group_cascades
    (env : Env) (request : Request) (db : DB) (user : User.t) (g : DebtGroup.t) :
  main.require_user env request db = Return user ->
  In g (debt_groups db) ->
  DebtGroup.user_id g = User.id user ->
  let group_id := DebtGroup.id g in
  let db' := snd (main.delete_group env request group_id db) in
  fst (main.delete_group env request group_id db)
  = Return (RedirectResponse "/dashboard" 302 [] []) /\
  group_absent db' group_id /\
  (forall i', In i' (debt_items db') -> DebtItem.group_id i' <> group_id) /\
  (forall i, In i (debt_items db) -> DebtItem.group_id i = group_id ->
             item_absent db' (DebtItem.id i)) /\
  (forall env' request' user',
      main.require_user env' request' db' = Return user' ->
      main.group_detail env' request' group_id db' = (Raise (HTTPException 404 []), db') /\
      forall i any_group,
        In i (debt_items db) -> DebtItem.group_id i = group_id ->
        main.delete_item env' request' any_group (DebtItem.id i) db'
        = (Raise (HTTPException 404 []), db')).
Proof.
  intros Hauth Hin Howner group_id db'.
  destruct (query_group_owned db g Hin) as [g' Hq]. rewrite Howner in Hq.
  destruct (query_group_some _ _ _ _ Hq) as (_ & Hid & _).
  assert (Hdb' : db' = db_delete_group db g').
  { unfold db', main.delete_group, main.with_user. fold group_id.
    rewrite Hauth. unfold group_id. rewrite Hq. reflexivity. }
  assert (Habs : group_absent db' group_id).
  { rewrite Hdb'. unfold group_id. rewrite <- Hid. apply db_delete_group_groups. }
  assert (Hids : forall i, In i (debt_items db) -> DebtItem.group_id i = group_id ->
                           item_absent db' (DebtItem.id i)).
  { intros i Hi Hg. rewrite Hdb'. apply db_delete_group_item_ids; [exact Hi|].
    rewrite Hid. exact Hg. }
  split; [|split; [|split; [|split]]].
  - unfold main.delete_group, main.with_user. rewrite Hauth.
    unfold group_id. rewrite Hq. reflexivity.
  - exact Habs.
  - intros i' Hi'. rewrite Hdb' in Hi'.
    apply db_delete_group_items in Hi' as [_ Hne]. rewrite Hid in Hne. exact Hne.
  - exact Hids.
  - intros env' request' user' Hauth'. split.
    + unfold main.group_detail, main.with_user. rewrite Hauth'.
      rewrite (query_group_none db' group_id (User.id user') (or_introl Habs)).
      reflexivity.
    + intros i any_group Hi Hg.
      unfold main.delete_item, main.with_user. rewrite Hauth'.
      rewrite (query_item_none db' (DebtItem.id i) any_group (User.id user')
                 (or_introl (Hids i Hi Hg))).
      reflexivity.
Qed.

End DeleteGroupFacts.

Lemma delete_group_cascades_witness :
  fst (main.delete_group (B := toy.backend) toy.env0 toy.as_alice 1 toy.db_items)
  = Return (RedirectResponse "/dashboard" 302 [] []) /\
  (forall i, In i (debt_items toy.db_items) -> DebtItem.group_id i = 1 ->
             item_absent
               (snd (main.delete_group (B := toy.backend) toy.env0 toy.as_alice 1 toy.db_items))
               (DebtItem.id i)).
Proof.
  pose proof (delete_group_cascades (B := toy.backend) toy.env0 toy.as_alice toy.db_items
                toy.alice toy.flat eq_refl (or_introl eq_refl) eq_refl) as H.
  exact (conj (proj1 H) (proj1 (proj2 (proj2 (proj2 H))))).
Defined.

(** ** The invariant of the store *)

Lemma store_invariant_empty : store_invariant empty_db.
Proof.
  split; [split; [|split]; constructor|]. intros i [].
Qed.

Section InvariantFacts.
Context {B : Backend}.

Lemma register_invariant (env : Env) (username password : string) (db : DB) :
  store_invariant db -> store_invariant (snd (main.register env username password db)).
Proof.
  intros Hinv. unfold main.register.
  destruct (first _); [exact Hinv|].
  destruct (auth.hash_password (salt env) password) as [digest|e]; [|exact Hinv]. simpl.
  destruct Hinv as [(Hu & Hg & Hi) Hown].
  split; [split; [|split]; simpl; auto | exact Hown].
  apply NoDup_map_snoc; [exact Hu|]. intros x Hx. simpl.
  pose proof (next_id_fresh (map User.id (users db)) (User.id x) (in_map _ _ _ Hx)). lia.
Qed.

Lemma create_group_invariant (env : Env) (request : Request) (name : string) (db : DB) :
  store_invariant db -> store_invariant (snd (main.create_group env request name db)).
Proof.
  intros Hinv. unfold main.create_group, main.with_user.
  destruct (main.require_user env request db) as [user|e]; [|exact Hinv]. simpl.
  destruct Hinv as [(Hu & Hg & Hi) Hown].
  assert (Hfresh : forall x, In x (debt_groups db) ->
                             DebtGroup.id x <> next_id (map DebtGroup.id (debt_groups db))).
  { intros x Hx.
    pose proof (next_id_fresh (map DebtGroup.id (debt_groups db)) (DebtGroup.id x)
                  (in_map _ _ _ Hx)). lia. }
  split; [split; [|split]; simpl; auto|].
  - apply NoDup_map_snoc; [exact Hg|]. exact Hfresh.
  - intros i Hin. simpl in Hin |- *. destruct (Hown i Hin) as [(g0 & Hg0 & Hid0) Hall].
    split.
    + exists g0. split; [apply in_or_app; left; exact Hg0 | exact Hid0].
    + intros g Hgin Hid. apply in_app_or in Hgin as [Hold | [<- | []]].
      * exact (Hall g Hold Hid).
      * exfalso. simpl in Hid. apply (Hfresh g0 Hg0). congruence.
Qed.

Lemma add_item_invariant (env : Env) (request : Request) (group_id : Z)
    (amount : float) (note : option string) (db : DB) :
  store_invariant db ->
  store_invariant (snd (main.add_item env request group_id amount note db)).
Proof.
  intros Hinv. unfold main.add_item, main.with_user.
  destruct (main.require_user env request db) as [user|e]; [|exact Hinv].
  destruct (query_group db group_id (User.id user)) as [group|] eqn:Hq; [|exact Hinv].
  apply query_group_some in Hq as (Hgin & Hgid & Hguser). simpl.
  destruct Hinv as [(Hu & Hg & Hi) Hown].
  split; [split; [|split]; simpl; auto|].
  - apply NoDup_map_snoc; [exact Hi|]. intros x Hx. simpl.
    pose proof (next_id_fresh (map DebtItem.id (debt_items db)) (DebtItem.id x)
                  (in_map _ _ _ Hx)). lia.
  - intros i Hin. simpl in Hin |- *. apply in_app_or in Hin as [Hold | [<- | []]].
    + exact (Hown i Hold).
    + simpl. split.
      * exists group. split; [exact Hgin | reflexivity].
      * intros g Hgin' Hid.
        rewrite (NoDup_map_In_eq DebtGroup.id (debt_groups db) g group Hg Hgin' Hgin Hid).
        exact Hguser.
Qed.

Lemma delete_item_invariant (env : Env) (request : Request) (group_id item_id : Z) (db : DB) :
  store_invariant db ->
  store_invariant (snd (main.delete_item env request group_id item_id db)).
Proof.
  intros Hinv. unfold main.delete_item, main.with_user.
  destruct (main.require_user env request db) as [user|e]; [|exact Hinv].
  destruct (query_item db item_id group_id (User.id user)) as [item|]; [|exact Hinv].
  simpl. destruct Hinv as [(Hu & Hg & Hi) Hown].
  split; [split; [|split]; simpl; auto|].
  - apply NoDup_map_filter. exact Hi.
  - intros i Hin. simpl in Hin |- *. apply filter_In in Hin as [Hold _].
    exact (Hown i Hold).
Qed.

Lemma delete_group_invariant (env : Env) (request : Request) (group_id : Z) (db : DB) :
  store_invariant db ->
  store_invariant (snd (main.delete_group env request group_id db)).
Proof.
  intros Hinv. unfold main.delete_group, main.with_user.
  destruct (main.require_user env request db) as [user|e]; [|exact Hinv].
  destruct (query_group db group_id (User.id user)) as [group|]; [|exact Hinv].
  cbn [snd]. destruct Hinv as [(Hu & Hg & Hi) Hown].
  split; [split; [|split]|].
  - exact Hu.
  - apply NoDup_map_filter. exact Hg.
  - apply NoDup_map_filter. exact Hi.
  - intros i Hin. apply db_delete_group_items in Hin as [Hold Hne].
    destruct (Hown i Hold) as [(g0 & Hg0 & Hid0) Hall]. split.
    + exists g0. split; [|exact Hid0]. simpl. apply filter_In. split; [exact Hg0|].
      apply negb_true_iff, Z.eqb_neq. congruence.
    + intros g Hgin Hid. simpl in Hgin. apply filter_In in Hgin as [Hgold _].
      exact (Hall g Hgold Hid).
Qed.

Lemma handle_invariant (env : Env) (request : Request) (call : main.Call) (db : DB) :
  store_invariant db -> store_invariant (snd (main.handle env request call db)).
Proof.
  intros Hinv. destruct call; cbn [main.handle].
  - exact Hinv.
  - exact Hinv.
  - now apply register_invariant.
  - exact Hinv.
  - unfold main.login. destruct (first _) as [user|]; [|exact Hinv].
    destruct (auth.verify_password _ _) as [[|]|e]; exact Hinv.
  - exact Hinv.
  - unfold main.dashboard, main.with_user.
    destruct (main.require_user env request db); exact Hinv.
  - now apply create_group_invariant.
  - unfold main.group_detail, main.with_user.
    destruct (main.require_user env request db) as [user|e]; [|exact Hinv].
    destruct (query_group _ _ _); exact Hinv.
  - now apply add_item_invariant.
  - now apply delete_item_invariant.
  - now apply delete_group_invariant.
  - exact Hinv.
Qed.

Lemma reachable_invariant (db : DB) : main.reachable db -> store_invariant db.
Proof.
  induction 1 as [|env request call db Hreach IH].
  - exact store_invariant_empty.
  - now apply handle_invariant.
Qed.

(** C9. In every state of the store that requests reach from the empty
    one, each item belongs to a group that exists, and the [user_id] of the
    item is the [user_id] of that group; [add_item] creates an item with the
    caller's [id] under a group it found by the caller's [id], and no route
    rewrites either field. *)
Theorem reachable_item_owner_is_group_owner (db : DB) :
  main.reachable db ->
  item_owner_is_group_owner db /\
  (forall env request group_id amount note user group,
      main.require_user env request db = Return user ->
      query_group db group_id (User.id user) = Some group ->
      exists item,
        debt_items (snd (main.add_item env request group_id amount note db))
        = (debt_items db ++ [item])%list /\
        DebtItem.user_id item = User.id user /\
        DebtItem.group_id item = DebtGroup.id group /\
        DebtGroup.user_id group = User.id user).
Proof.
  intros Hreach. split; [exact (proj2 (reachable_invariant db Hreach))|].
  intros env request group_id amount note user group Hauth Hq.
  unfold main.add_item, main.with_user. rewrite Hauth, Hq. simpl.
  eexists. split; [reflexivity|]. simpl.
  apply query_group_some in Hq as (_ & _ & Howner). auto.
Qed.

End InvariantFacts.

Lemma toy_db_items_reachable : main.reachable (B := toy.backend) toy.db_items.
Proof.
  unfold toy.db_items, toy.db_group, toy.db_users, toy.db_alice, toy.run.
  repeat apply main.reachable_step. apply main.reachable_init.
Qed.

Lemma reachable_item_owner_is_group_owner_witness :
  main.reachable (B := toy.backend) toy.db_items /\
  item_owner_is_group_owner toy.db_items.
Proof.
  split; [exact toy_db_items_reachable|].
  exact (proj1 (reachable_item_owner_is_group_owner (B := toy.backend) toy.db_items
                  toy_db_items_reachable)).
Defined.

(** ** ORDER BY ... DESC *)

Section OrderBy.
Context {A : Type} (key : A -> Z).

Let desc (r1 r2 : A) : Prop := key r2 <= key r1.

Lemma insert_desc_perm (row : A) (rows : list A) :
  Permutation (insert_desc key row rows) (row :: rows).
Proof.
  induction rows as [|r rs IH]; simpl; [apply Permutation_refl|].
  destruct (key r <=? key row); [apply Permutation_refl|].
  apply perm_trans with (r :: row :: rs); [now apply perm_skip | apply perm_swap].
Qed.

Lemma order_by_desc_perm (rows : list A) :
  Permutation (order_by_desc key rows) rows.
Proof.
  induction rows as [|r rs IH]; simpl; [apply perm_nil|].
  apply perm_trans with (r :: order_by_desc key rs);
    [apply insert_desc_perm | now apply perm_skip].
Qed.

Lemma insert_desc_sorted (row : A) (rows : list A) :
  StronglySorted desc rows -> StronglySorted desc (insert_desc key row rows).
Proof.
  induction rows as [|r rs IH]; simpl; intros Hs.
  - constructor; constructor.
  - inversion Hs as [|? ? Hrs Hall]; subst.
    destruct (key r <=? key row) eqn:E.
    + apply Z.leb_le in E. constructor; [exact Hs|].
      constructor; [exact E|].
      eapply Forall_impl; [|exact Hall]. unfold desc. intros a Ha. lia.
    + apply Z.leb_gt in E. constructor; [now apply IH|].
      apply (Permutation_Forall (Permutation_sym (insert_desc_perm row rs))).
      constructor; [unfold desc; lia | exact Hall].
Qed.

Lemma order_by_desc_sorted (rows : list A) :
  StronglySorted desc (order_by_desc key rows).
Proof.
  induction rows as [|r rs IH]; simpl; [constructor | now apply insert_desc_sorted].
Qed.

End OrderBy.

(** ** main.py: the dashboard *)

Section DashboardFacts.
Context {B : Backend}.

Lemma group_balances_perm (db : DB) (user : User.t) :
  Permutation (main.group_balances db user)
    (map (fun g => (g, coalesce
                         (sql_sum GroupBalances
                            (map DebtItem.amount (items_of_group db g)))
                         0%float))
         (groups_of_user db user)).
Proof.
  unfold main.group_balances, groups_of_user, items_of_group.
  apply order_by_desc_perm.
Qed.

(** X17. For an authenticated user the dashboard answers 200 and shows
    the user's own groups, each exactly once, newest first by [created_at].
    With each group comes what the engine's SUM makes of the amounts of the
    items that have the group's [id], and 0.0 when the group has no item; the
    total is 0.0 when the user has no item. The store is left as it is. *)
Theorem dashboard_lists_own_groups
    (env : Env) (request : Request) (db : DB) (user : User.t) :
  main.require_user env request db = Return user ->
  exists rows total,
    main.dashboard env request db
    = (Return (TemplateResponse "dashboard.html" (DashboardContext user rows total) 200), db) /\
    Permutation (map fst rows) (groups_of_user db user) /\
    StronglySorted newer_or_same rows /\
    (forall g b, In (g, b) rows ->
                 b = coalesce (sql_sum GroupBalances
                                 (map DebtItem.amount (items_of_group db g))) 0%float /\
                 (items_of_group db g = [] -> b = 0%float)) /\
    (items_of_user db user = [] -> total = 0%float).
Proof.
  intros Hauth.
  exists (main.group_balances db user), (main.total_balance db user).
  split; [|split; [|split; [|split]]].
  - unfold main.dashboard, main.with_user. rewrite Hauth. reflexivity.
  - eapply perm_trans; [apply Permutation_map, group_balances_perm|].
    rewrite map_map. simpl. rewrite map_id. apply Permutation_refl.
  - apply (order_by_desc_sorted (fun row : DebtGroup.t * float => DebtGroup.created_at (fst row))).
  - intros g b Hin.
    apply (Permutation_in _ (group_balances_perm db user)) in Hin.
    apply in_map_iff in Hin as (g' & Heq & _). injection Heq as -> <-.
    split; [reflexivity|]. intros ->. reflexivity.
  - unfold main.total_balance. fold (items_of_user db user). intros ->. reflexivity.
Qed.

End DashboardFacts.

Lemma dashboard_lists_own_groups_witness :
  exists rows total,
    main.dashboard (B := toy.backend) toy.env0 toy.as_alice toy.db_items
    = (Return (TemplateResponse "dashboard.html"
                 (DashboardContext toy.alice rows total) 200), toy.db_items) /\
    Permutation (map fst rows) [toy.flat].
Proof.
  destruct (dashboard_lists_own_groups (B := toy.backend) toy.env0 toy.as_alice toy.db_items
              toy.alice eq_refl)
    as (rows & total & Hdash & Hperm & _).
  exists rows, total. split; [exact Hdash | exact Hperm].
Defined.

(** * Further properties of the code *)

(** ** auth.py: hashing and verifying *)

Section MorePasswordFacts.
Context {B : Backend}.

Lemma verify_password_digest_rejected (plain_password hashed_password : string)
    (h : bcrypt.t) (chk : string) :
  bcrypt_digest hashed_password h chk ->
  acceptable_secret plain_password = false ->
  auth.verify_password plain_password hashed_password = Raise PasswordSizeError \/
  auth.verify_password plain_password hashed_password = Raise NullPasswordError.
Proof.
  intros (Hid & Hparse & Hchk) Hbad.
  unfold auth.verify_password, auth.pwd_context_verify. rewrite Hid.
  destruct (auth.MAX_PASSWORD_SIZE <? auth.str_len plain_password); [left; reflexivity|].
  rewrite Hparse. simpl. rewrite Hchk.
  destruct (calc_checksum_rejected (bcrypt.ident h) (bcrypt.rounds h) (bcrypt.salt h)
              plain_password Hbad) as [-> | ->]; auto.
Qed.

(** X1. [hash_password] returns a digest exactly for the passwords the
    hasher lets through (at most 4096 bytes, no NUL byte). Such a digest,
    made with a 22-character salt, is always read as a digest by
    [verify_password]: [True] for the password that was hashed; for another
    attempt that is let through, whether it has the same bcrypt checksum
    under the stored salt; and for an attempt that is not let through, the
    size or NUL error of the hasher instead of a boolean. *)
Theorem verify_password_of_hash_password
    {L : BackendLaws B} (salt password attempt : string) :
  String.length salt = 22%nat ->
  ((exists digest, auth.hash_password salt password = Return digest) <->
   acceptable_secret password = true) /\
  (forall digest,
      auth.hash_password salt password = Return digest ->
      auth.verify_password password digest = Return true /\
      (acceptable_secret attempt = true ->
       auth.verify_password attempt digest
       = Return (String.eqb (bcrypt_calc_checksum "$2b$" 12 salt attempt)
                            (bcrypt_calc_checksum "$2b$" 12 salt password))) /\
      (acceptable_secret attempt = false ->
       auth.verify_password attempt digest = Raise PasswordSizeError \/
       auth.verify_password attempt digest = Raise NullPasswordError)).
Proof.
  intros Hlen. split.
  - split.
    + intros [digest Hhash]. destruct (acceptable_secret password) eqn:Hok; [reflexivity|].
      destruct (hash_password_rejected salt password Hok) as [E | E];
        rewrite E in Hhash; discriminate.
    + intros Hok. eexists. apply (hash_password_acceptable salt password Hok).
  - intros digest Hhash.
    split; [exact (verify_password_hash_password salt password digest Hlen Hhash)|].
    assert (Hok : acceptable_secret password = true).
    { destruct (acceptable_secret password) eqn:Hok; [reflexivity|].
      destruct (hash_password_rejected salt password Hok) as [E | E];
        rewrite E in Hhash; discriminate. }
    rewrite (hash_password_acceptable salt password Hok) in Hhash.
    assert (Hd : digest
                 = "$2b$12$" ++ salt ++ bcrypt_calc_checksum "$2b$" 12 salt password)
      by congruence.
    pose proof (new_digest_is_digest salt password Hlen) as Hdigest.
    rewrite <- Hd in Hdigest. split.
    + intros Hattempt. exact (verify_password_digest attempt digest _ _ Hdigest Hattempt).
    + intros Hattempt. exact (verify_password_digest_rejected attempt digest _ _ Hdigest Hattempt).
Qed.

End MorePasswordFacts.

Lemma verify_password_of_hash_password_witness :
  auth.hash_password (B := toy.backend) toy.salt22 "pw" = Return (toy.digest_of "pw") /\
  auth.verify_password (B := toy.backend) "pw" (toy.digest_of "pw") = Return true /\
  auth.verify_password (B := toy.backend) "guess" (toy.digest_of "pw") = Return false /\
  (auth.verify_password (B := toy.backend) toy.nul_password (toy.digest_of "pw")
   = Raise PasswordSizeError \/
   auth.verify_password (B := toy.backend) toy.nul_password (toy.digest_of "pw")
   = Raise NullPasswordError).
Proof.
  pose proof (proj2 (verify_password_of_hash_password (B := toy.backend) toy.salt22 "pw"
                       "guess" eq_refl) (toy.digest_of "pw") eq_refl) as Hguess.
  pose proof (proj2 (verify_password_of_hash_password (B := toy.backend) toy.salt22 "pw"
                       toy.nul_password eq_refl) (toy.digest_of "pw") eq_refl) as Hnul.
  split; [reflexivity|]. split; [exact (proj1 Hguess)|].
  split; [exact (proj1 (proj2 Hguess) eq_refl)|].
  exact (proj2 (proj2 Hnul) eq_refl).
Defined.

(** ** auth.py: what a token that is accepted looks like *)

Section MoreTokenFacts.
Context {B : Backend}.

Lemma loads_returns (clock : N) (token : string) (data : json) :
  auth.loads clock token auth.SESSION_MAX_AGE = Return data ->
  signature_valid token = true /\
  exists issued,
    issued_at token = Some issued /\
    0 <= elapsed clock issued <= auth.SESSION_MAX_AGE /\
    embedded_payload token = Some data.
Proof.
  unfold signature_valid, issued_at, embedded_payload, elapsed.
  unfold auth.loads, auth.TimestampSigner_unsign, auth.Signer_unsign.
  destruct (rsplit token) as [[value sig]|]; [|simpl; discriminate].
  destruct (verify_signature value sig).
  - destruct (rsplit value) as [[payload ts]|]; [|discriminate].
    destruct (decode_timestamp ts) as [issued|]; [|discriminate].
    unfold auth.raise_SignatureExpired, auth.timestamp_to_datetime.
    destruct (Z.of_N clock - Z.of_N issued >? auth.SESSION_MAX_AGE) eqn:E1;
      [destruct (issued <=? auth.MAX_DATETIME)%N; discriminate|].
    destruct (Z.of_N clock - Z.of_N issued <? 0) eqn:E2;
      [destruct (issued <=? auth.MAX_DATETIME)%N; discriminate|].
    destruct (load_payload payload) as [data'|]; [|discriminate].
    intros H. injection H as ->. split; [reflexivity|].
    exists issued. rewrite Z.gtb_ltb in E1. apply Z.ltb_ge in E1, E2. auto.
  - destruct (rsplit value) as [[payload ts]|]; discriminate.
Qed.

(** X2. [read_session_token] gives a user identifier only for a token whose
    signature verifies, whose issue time is readable and lies between now and
    [SESSION_MAX_AGE] seconds back, and whose payload is an object holding
    that identifier under ["user_id"]. *)
Theorem read_session_token_accepts_only_valid
    (clock : N) (token : string) (user_id : Z) :
  auth.read_session_token clock token = Return (Some user_id) ->
  signature_valid token = true /\
  exists issued d,
    issued_at token = Some issued /\
    0 <= elapsed clock issued <= auth.SESSION_MAX_AGE /\
    embedded_payload token = Some (JObj d) /\
    dict_get d "user_id" = Some user_id.
Proof.
  unfold auth.read_session_token.
  destruct (auth.loads clock token auth.SESSION_MAX_AGE) as [data|e] eqn:Hloads.
  - apply loads_returns in Hloads as (Hsig & issued & Hts & Hage & Hpayload).
    destruct data as [d|]; simpl; [|discriminate].
    intros H. injection H as H. split; [exact Hsig|]. exists issued, d. auto.
  - destruct (isinstance_BadSignature e || isinstance_SignatureExpired e); discriminate.
Qed.

End MoreTokenFacts.

Lemma read_session_token_accepts_only_valid_witness :
  signature_valid (B := toy.backend) (toy.token_for 7) = true /\
  issued_at (B := toy.backend) (toy.token_for 7) = Some 3%N.
Proof.
  destruct (read_session_token_accepts_only_valid (B := toy.backend) 3 (toy.token_for 7) 7
              eq_refl) as (Hsig & issued & d & Hts & _).
  split; [exact Hsig | reflexivity].
Defined.

(** ** main.py: who a request is resolved to *)

Section MoreSessionFacts.
Context {B : Backend}.

Lemma create_session_token_truthy {L : BackendLaws B} (issued : N) (user_id : Z) :
  str_truthy (auth.create_session_token issued user_id) = true.
Proof. apply signature_valid_truthy, signature_valid_create. Qed.

Lemma get_current_user_issued {L : BackendLaws B}
    (env : Env) (request : Request) (db : DB) (issued : N) (user_id : Z) :
  cookies_get (cookies request) auth.SESSION_COOKIE
  = Some (auth.create_session_token issued user_id) ->
  0 <= elapsed (clock env) issued <= auth.SESSION_MAX_AGE ->
  main.get_current_user env request db
  = if user_id =? 0 then Raise (HTTPException 401 [])
    else match first (filter (fun u => User.id u =? user_id) (users db)) with
         | Some user => Return user
         | None => Raise (HTTPException 401 [])
         end.
Proof.
  intros Hcookie Hage. unfold main.get_current_user.
  rewrite Hcookie, create_session_token_truthy, (read_issued_token _ _ _ Hage).
  reflexivity.
Qed.

(** X3. Whoever [get_current_user] returns is a row of the users table
    whose [id] is not zero and is the identifier that [read_session_token]
    reads from the non-empty session cookie of the request. *)
Theorem get_current_user_returns_stored_user
    (env : Env) (request : Request) (db : DB) (user : User.t) :
  main.get_current_user env request db = Return user ->
  In user (users db) /\ User.id user <> 0 /\
  exists token,
    cookies_get (cookies request) auth.SESSION_COOKIE = Some token /\
    token <> EmptyString /\
    auth.read_session_token (clock env) token = Return (Some (User.id user)).
Proof.
  unfold main.get_current_user.
  destruct (cookies_get (cookies request) auth.SESSION_COOKIE) as [token|]; [|discriminate].
  destruct token as [|c token']; [discriminate|]. simpl negb. cbv iota.
  destruct (auth.read_session_token (clock env) (String c token')) as [[uid|]|e] eqn:Hread;
    simpl; try discriminate.
  destruct (uid =? 0) eqn:Hzero; [discriminate|].
  destruct (first _) as [u|] eqn:Hfirst; [|discriminate].
  intros H. injection H as <-.
  apply first_filter_some in Hfirst as [Hin Hid]. apply Z.eqb_eq in Hid.
  apply Z.eqb_neq in Hzero. subst uid.
  split; [exact Hin|]. split; [exact Hzero|].
  exists (String c token'). split; [reflexivity|]. split; [discriminate | exact Hread].
Qed.

(** X4. A request that carries a token issued for [user_id] at most
    [SESSION_MAX_AGE] seconds ago is resolved to the stored user with that
    [id]; when no stored user has it (the account is gone) the request is
    answered with 401. *)
Theorem get_current_user_of_issued_token
    {L : BackendLaws B} (env : Env) (request : Request) (db : DB)
    (issued : N) (user_id : Z) :
  cookies_get (cookies request) auth.SESSION_COOKIE
  = Some (auth.create_session_token issued user_id) ->
  0 <= elapsed (clock env) issued <= auth.SESSION_MAX_AGE ->
  (forall user,
      user_id <> 0 ->
      first (filter (fun u => User.id u =? user_id) (users db)) = Some user ->
      main.get_current_user env request db = Return user /\
      main.require_user env request db = Return user) /\
  ((forall u, In u (users db) -> User.id u <> user_id) ->
   main.get_current_user env request db = Raise (HTTPException 401 []) /\
   main.require_user env request db = Raise login_redirect).
Proof.
  intros Hcookie Hage.
  pose proof (get_current_user_issued env request db issued user_id Hcookie Hage) as Hget.
  split.
  - intros user Hnz Hfirst. apply Z.eqb_neq in Hnz.
    rewrite Hnz, Hfirst in Hget. unfold main.require_user. rewrite Hget. auto.
  - intros Hgone.
    rewrite first_filter_none in Hget
      by (intros u Hu; apply Z.eqb_neq; exact (Hgone u Hu)).
    assert (H401 : main.get_current_user env request db = Raise (HTTPException 401 []))
      by (rewrite Hget; destruct (user_id =? 0); reflexivity).
    unfold main.require_user. rewrite H401. auto.
Qed.

(** X5. Without a session cookie, with an empty one, or with a token whose
    signature does not verify, [get_current_user] raises 401. Whenever it
    raises an [HTTPException], [require_user] raises the redirect to [/login]
    instead, and every route that depends on [require_user] passes that
    redirect on and leaves the store untouched. *)
Theorem unauthenticated_request_is_redirected
    (env : Env) (request : Request) (db : DB) :
  (cookies_get (cookies request) auth.SESSION_COOKIE = None \/
   cookies_get (cookies request) auth.SESSION_COOKIE = Some EmptyString \/
   (exists token, cookies_get (cookies request) auth.SESSION_COOKIE = Some token /\
                  signature_valid token = false) ->
   main.get_current_user env request db = Raise (HTTPException 401 [])) /\
  (forall status_code headers,
      main.get_current_user env request db = Raise (HTTPException status_code headers) ->
      main.require_user env request db = Raise login_redirect /\
      forall call, requires_login call = true ->
                   main.handle env request call db = (Raise login_redirect, db)).
Proof.
  split.
  - unfold main.get_current_user.
    intros [-> | [-> | (token & -> & Hsig)]]; [reflexivity | reflexivity |].
    destruct (str_truthy token); [|reflexivity]. simpl negb. cbv iota.
    unfold auth.read_session_token.
    destruct (loads_bad_signature (clock env) token Hsig) as (e & -> & He).
    rewrite He. reflexivity.
  - intros status_code headers Hget.
    assert (Hreq : main.require_user env request db = Raise login_redirect)
      by (unfold main.require_user; rewrite Hget; reflexivity).
    split; [exact Hreq|].
    intros call Hcall.
    destruct call; try discriminate Hcall; cbn [main.handle];
      unfold main.dashboard, main.create_group, main.group_detail, main.add_item,
        main.delete_item, main.delete_group, main.with_user;
      rewrite Hreq; reflexivity.
Qed.

End MoreSessionFacts.

Lemma get_current_user_returns_stored_user_witness :
  In toy.alice (users toy.db_items) /\ User.id toy.alice <> 0.
Proof.
  pose proof (get_current_user_returns_stored_user (B := toy.backend) toy.env0 toy.as_alice
                toy.db_items toy.alice eq_refl) as H.
  exact (conj (proj1 H) (proj1 (proj2 H))).
Defined.

Lemma get_current_user_of_issued_token_witness :
  main.get_current_user (B := toy.backend) toy.env0 toy.as_alice toy.db_items
  = Return toy.alice /\
  main.get_current_user (B := toy.backend) toy.env0 toy.as_alice empty_db
  = Raise (HTTPException 401 []).
Proof.
  assert (Hage : 0 <= elapsed (clock toy.env0) 3 <= auth.SESSION_MAX_AGE)
    by (vm_compute; split; discriminate).
  assert (Hnz : 1 <> 0) by discriminate.
  split.
  - exact (proj1 (proj1 (get_current_user_of_issued_token (B := toy.backend) toy.env0
                           toy.as_alice toy.db_items 3 1 eq_refl Hage)
                        toy.alice Hnz eq_refl)).
  - refine (proj1 (proj2 (get_current_user_of_issued_token (B := toy.backend) toy.env0
                            toy.as_alice empty_db 3 1 eq_refl Hage) _)).
    intros u [].
Defined.

Lemma unauthenticated_request_is_redirected_witness :
  main.handle (B := toy.backend) toy.env0 (toy.request_with "") (main.DeleteGroup 1)
    toy.db_items
  = (Raise login_redirect, toy.db_items).
Proof.
  pose proof (unauthenticated_request_is_redirected (B := toy.backend) toy.env0
                (toy.request_with "") toy.db_items) as [H401 Hredirect].
  exact (proj2 (Hredirect 401 [] (H401 (or_intror (or_introl eq_refl))))
               (main.DeleteGroup 1) eq_refl).
Defined.

(** ** main.py: from registration and login to a session *)

Lemma next_id_positive (ids : list Z) : 1 <= next_id ids.
Proof.
  unfold next_id. induction ids as [|y ids IH]; cbn [fold_right]; lia.
Qed.

Lemma first_filter_unique {A : Type} (f : A -> Z) (l : list A) (x : A) :
  NoDup (map f l) -> In x l ->
  first (filter (fun y => f y =? f x) l) = Some x.
Proof.
  induction l as [|a l IH]; intros Hnd Hin; [destruct Hin|].
  simpl. destruct (f a =? f x) eqn:E.
  - apply Z.eqb_eq in E. simpl. f_equal.
    exact (NoDup_map_In_eq f (a :: l) a x Hnd (or_introl eq_refl) Hin E).
  - destruct Hin as [-> | Hin]; [rewrite Z.eqb_refl in E; discriminate|].
    inversion Hnd; subst. now apply IH.
Qed.

Section SessionStartFacts.
Context {B : Backend}.

(** X6. When the username is free and the password is one the hasher lets
    through (at most 4096 bytes, no NUL byte), [register] creates the account,
    and a request that sends back the cookie it set, at most
    [SESSION_MAX_AGE] seconds later, is resolved by [require_user] to the
    account just created: its [id] is at least one and no older row has
    it. *)
Theorem register_then_authenticated
    {L : BackendLaws B} (env env' : Env) (username password : string) (db : DB) :
  ~ username_taken db username ->
  acceptable_secret password = true ->
  0 <= elapsed (clock env') (clock env) <= auth.SESSION_MAX_AGE ->
  exists token user,
    fst (main.register env username password db)
    = Return (RedirectResponse "/dashboard" 302 [main.session_cookie token] []) /\
    users (snd (main.register env username password db)) = (users db ++ [user])%list /\
    User.username user = username /\
    1 <= User.id user /\
    main.require_user env' (request_with_session token)
      (snd (main.register env username password db)) = Return user.
Proof.
  intros Hfree Hok Hage. unfold main.register.
  rewrite first_filter_none by (apply username_free_filter; exact Hfree).
  rewrite (hash_password_acceptable (salt env) password Hok).
  cbn [fst snd users].
  set (uid := next_id (map User.id (users db))).
  exists (auth.create_session_token (clock env) uid).
  exists {| User.id := uid; User.username := username;
            User.password_hash :=
              "$2b$12$" ++ salt env
              ++ bcrypt_calc_checksum "$2b$" 12 (salt env) password |}.
  split; [reflexivity|]. split; [reflexivity|].
  split; [reflexivity|]. split; [apply next_id_positive|].
  unfold main.require_user.
  rewrite (get_current_user_issued env'
             (request_with_session (auth.create_session_token (clock env) uid))
             _ (clock env) uid eq_refl Hage).
  cbn [User.id users]. subst uid.
  pose proof (next_id_positive (map User.id (users db))) as Hpos.
  destruct (next_id (map User.id (users db)) =? 0) eqn:E;
    [apply Z.eqb_eq in E; lia|].
  rewrite first_filter_app_last; [reflexivity | | apply Z.eqb_refl].
  intros u Hu. apply Z.eqb_neq.
  pose proof (next_id_fresh (map User.id (users db)) (User.id u) (in_map _ _ _ Hu)). lia.
Qed.

(** X7. When the stored [id]s are unique and not zero, a successful
    [login] leaves the store as it is and sets a cookie that [require_user]
    resolves, for [SESSION_MAX_AGE] seconds, to the very user whose password
    was verified. *)
Theorem login_then_authenticated
    {L : BackendLaws B} (env env' : Env) (username password : string)
    (db : DB) (user : User.t) :
  NoDup (map User.id (users db)) ->
  first (filter (fun u => String.eqb (User.username u) username) (users db)) = Some user ->
  auth.verify_password password (User.password_hash user) = Return true ->
  User.id user <> 0 ->
  0 <= elapsed (clock env') (clock env) <= auth.SESSION_MAX_AGE ->
  exists token,
    main.login env username password db
    = (Return (RedirectResponse "/dashboard" 302 [main.session_cookie token] []), db) /\
    main.require_user env' (request_with_session token) db = Return user.
Proof.
  intros Hnd Hfound Hverify Hnz Hage.
  exists (auth.create_session_token (clock env) (User.id user)). split.
  - unfold main.login. rewrite Hfound, Hverify. reflexivity.
  - unfold main.require_user.
    rewrite (get_current_user_issued env'
               (request_with_session (auth.create_session_token (clock env) (User.id user)))
               db (clock env) (User.id user) eq_refl Hage).
    apply Z.eqb_neq in Hnz. rewrite Hnz.
    rewrite (first_filter_unique User.id (users db) user Hnd);
      [reflexivity | exact (proj1 (first_filter_some _ _ _ Hfound))].
Qed.

End SessionStartFacts.

Lemma register_then_authenticated_witness :
  exists token user,
    fst (main.register (B := toy.backend) toy.env0 "carol" "pw3" toy.db_items)
    = Return (RedirectResponse "/dashboard" 302 [main.session_cookie token] []) /\
    User.username user = "carol" /\
    main.require_user (B := toy.backend) toy.env1 (request_with_session token)
      (snd (main.register (B := toy.backend) toy.env0 "carol" "pw3" toy.db_items))
    = Return user.
Proof.
  assert (Hfree : ~ username_taken toy.db_items "carol").
  { intros [u [Hu E]]. cbv in Hu. destruct Hu as [<- | [<- | []]]; discriminate E. }
  assert (Hage : 0 <= elapsed (clock toy.env1) (clock toy.env0) <= auth.SESSION_MAX_AGE)
    by (vm_compute; split; discriminate).
  destruct (register_then_authenticated (B := toy.backend) toy.env0 toy.env1
              "carol" "pw3" toy.db_items Hfree eq_refl Hage)
    as (token & user & Hresp & _ & Hname & _ & Hauth).
  exists token, user. auto.
Defined.

Lemma login_then_authenticated_witness :
  exists token,
    main.login (B := toy.backend) toy.env0 "alice" "pw" toy.db_items
    = (Return (RedirectResponse "/dashboard" 302 [main.session_cookie token] []),
       toy.db_items) /\
    main.require_user (B := toy.backend) toy.env1 (request_with_session token) toy.db_items
    = Return toy.alice.
Proof.
  assert (Hnd : NoDup (map User.id (users toy.db_items))).
  { cbv. repeat constructor; simpl; intros H; repeat destruct H as [H | H]; try discriminate H;
      exact H. }
  assert (Hnz : User.id toy.alice <> 0) by discriminate.
  assert (Hage : 0 <= elapsed (clock toy.env1) (clock toy.env0) <= auth.SESSION_MAX_AGE)
    by (vm_compute; split; discriminate).
  exact (login_then_authenticated (B := toy.backend) toy.env0 toy.env1 "alice" "pw"
           toy.db_items toy.alice Hnd eq_refl eq_refl Hnz Hage).
Defined.

(** ** Accounts and owners in the reachable states *)

Lemma NoDup_map_snoc_any {A K : Type} (f : A -> K) (l : list A) (y : A) :
  NoDup (map f l) -> (forall x, In x l -> f x <> f y) -> NoDup (map f (l ++ [y])).
Proof.
  intros Hnd Hfresh. rewrite map_app. apply NoDup_app; [exact Hnd | |].
  - simpl. constructor; [intros [] | constructor].
  - intros a Ha [<- | []]. apply in_map_iff in Ha as (x & Hx & Hin).
    exact (Hfresh x Hin Hx).
Qed.

Lemma account_invariant_shrink (db db' : DB) :
  users db' = users db ->
  incl (debt_groups db') (debt_groups db) ->
  incl (debt_items db') (debt_items db) ->
  account_invariant db -> account_invariant db'.
Proof.
  intros Hu Hg Hi (Hnames & (Hpu & Hpg & Hpi) & (Hog & Hoi)).
  unfold account_invariant, usernames_unique, ids_positive, owners_exist.
  rewrite Hu. repeat split; auto.
Qed.

Section AccountFacts.
Context {B : Backend}.

Lemma require_user_stored (env : Env) (request : Request) (db : DB) (user : User.t) :
  main.require_user env request db = Return user -> In user (users db).
Proof.
  unfold main.require_user, main.get_current_user.
  destruct (cookies_get _ _) as [token|]; [|discriminate].
  destruct (negb (str_truthy token)); [discriminate|].
  destruct (auth.read_session_token _ _) as [[uid|]|e]; simpl;
    try discriminate; [|destruct (isinstance_HTTPException e); discriminate].
  destruct (uid =? 0); [discriminate|].
  destruct (first _) as [u|] eqn:Hfirst; [|discriminate].
  intros H. injection H as <-. exact (proj1 (first_filter_some _ _ _ Hfirst)).
Qed.

Lemma register_account_invariant (env : Env) (username password : string) (db : DB) :
  account_invariant db ->
  account_invariant (snd (main.register env username password db)).
Proof.
  intros Hinv. unfold main.register.
  destruct (first _) as [existing|] eqn:Hfirst; [exact Hinv|].
  destruct (auth.hash_password (salt env) password) as [digest|e]; [|exact Hinv]. cbn [snd].
  destruct Hinv as (Hnames & (Hpu & Hpg & Hpi) & (Hog & Hoi)).
  split; [|split; [split; [|split]|split]]; cbn [users debt_groups debt_items].
  - apply NoDup_map_snoc_any; [exact Hnames|]. intros x Hx E. simpl in E.
    assert (Hno : first (filter (fun u => String.eqb (User.username u) username) (users db))
                  <> None); [|contradiction].
    destruct (first_filter_exists (fun u => String.eqb (User.username u) username) (users db))
      as [y Hy]; [|congruence].
    exists x. split; [exact Hx | now apply String.eqb_eq].
  - intros u Hu. apply in_app_or in Hu as [Hu | [<- | []]]; [now apply Hpu|].
    apply next_id_positive.
  - exact Hpg.
  - exact Hpi.
  - intros g Hg. destruct (Hog g Hg) as (u & Hu & E).
    exists u. split; [apply in_or_app; left; exact Hu | exact E].
  - intros i Hi. destruct (Hoi i Hi) as (u & Hu & E).
    exists u. split; [apply in_or_app; left; exact Hu | exact E].
Qed.

Lemma create_group_account_invariant
    (env : Env) (request : Request) (name : string) (db : DB) :
  account_invariant db ->
  account_invariant (snd (main.create_group env request name db)).
Proof.
  intros Hinv. unfold main.create_group, main.with_user.
  destruct (main.require_user env request db) as [user|e] eqn:Hauth; [|exact Hinv].
  apply require_user_stored in Hauth. cbn [snd].
  destruct Hinv as (Hnames & (Hpu & Hpg & Hpi) & (Hog & Hoi)).
  split; [exact Hnames|]. split; [split; [|split]|split];
    cbn [users debt_groups debt_items]; auto.
  - intros g Hg. apply in_app_or in Hg as [Hg | [<- | []]]; [now apply Hpg|].
    apply next_id_positive.
  - intros g Hg. apply in_app_or in Hg as [Hg | [<- | []]]; [now apply Hog|].
    exists user. split; [exact Hauth | reflexivity].
Qed.

Lemma add_item_account_invariant
    (env : Env) (request : Request) (group_id : Z) (amount : float)
    (note : option string) (db : DB) :
  account_invariant db ->
  account_invariant (snd (main.add_item env request group_id amount note db)).
Proof.
  intros Hinv. unfold main.add_item, main.with_user.
  destruct (main.require_user env request db) as [user|e] eqn:Hauth; [|exact Hinv].
  apply require_user_stored in Hauth.
  destruct (query_group db group_id (User.id user)) as [group|]; [|exact Hinv]. cbn [snd].
  destruct Hinv as (Hnames & (Hpu & Hpg & Hpi) & (Hog & Hoi)).
  split; [exact Hnames|]. split; [split; [|split]|split];
    cbn [users debt_groups debt_items]; auto.
  - intros i Hi. apply in_app_or in Hi as [Hi | [<- | []]]; [now apply Hpi|].
    apply next_id_positive.
  - intros i Hi. apply in_app_or in Hi as [Hi | [<- | []]]; [now apply Hoi|].
    exists user. split; [exact Hauth | reflexivity].
Qed.

Lemma handle_account_invariant
    (env : Env) (request : Request) (call : main.Call) (db : DB) :
  account_invariant db -> account_invariant (snd (main.handle env request call db)).
Proof.
  intros Hinv. destruct call; cbn [main.handle]; try exact Hinv.
  - now apply register_account_invariant.
  - unfold main.login. destruct (first _) as [user|]; [|exact Hinv].
    destruct (auth.verify_password _ _) as [[|]|e]; exact Hinv.
  - unfold main.dashboard, main.with_user.
    destruct (main.require_user env request db); exact Hinv.
  - now apply create_group_account_invariant.
  - unfold main.group_detail, main.with_user.
    destruct (main.require_user env request db) as [user|e]; [|exact Hinv].
    destruct (query_group _ _ _); exact Hinv.
  - now apply add_item_account_invariant.
  - unfold main.delete_item, main.with_user.
    destruct (main.require_user env request db) as [user|e]; [|exact Hinv].
    destruct (query_item _ _ _ _) as [item|]; [|exact Hinv]. cbn [snd].
    apply (account_invariant_shrink db); [reflexivity | apply incl_refl | | exact Hinv].
    intros i Hi. simpl in Hi. now apply filter_In in Hi.
  - unfold main.delete_group, main.with_user.
    destruct (main.require_user env request db) as [user|e]; [|exact Hinv].
    destruct (query_group _ _ _) as [group|]; [|exact Hinv]. cbn [snd].
    apply (account_invariant_shrink db); [reflexivity | | | exact Hinv].
    + intros g Hg. simpl in Hg. now apply filter_In in Hg.
    + intros i Hi. simpl in Hi. now apply filter_In in Hi.
Qed.

(** X8. In every state of the store that requests reach from the empty
    one: no two users have the same username, so the lookup by username in
    [login] and [register] finds at most one row; every primary key is at
    least one, so no stored user has the [id] that [get_current_user] treats
    as missing; and the [user_id] of every group and item is the [id] of a
    stored user. *)
Theorem reachable_accounts (db : DB) :
  main.reachable db ->
  usernames_unique db /\
  (forall u v, In u (users db) -> In v (users db) ->
               User.username u = User.username v -> u = v) /\
  ids_positive db /\
  owners_exist db.
Proof.
  intros Hreach.
  assert (Hinv : account_invariant db).
  { induction Hreach as [|env request call db Hreach IH].
    - split; [constructor|]. split; [split; [|split]|split]; intros x [].
    - now apply handle_account_invariant. }
  destruct Hinv as (Hnames & Hpos & Hown).
  split; [exact Hnames|]. split; [|split; assumption].
  unfold usernames_unique in Hnames. clear Hpos Hown Hreach.
  induction (users db) as [|a l IH]; intros u v Hu Hv E; [destruct Hu|].
  simpl in Hnames. inversion Hnames as [|? ? Hnotin Hnd]; subst.
  destruct Hu as [-> | Hu], Hv as [-> | Hv]; auto.
  - exfalso. apply Hnotin. rewrite E. now apply in_map.
  - exfalso. apply Hnotin. rewrite <- E. now apply in_map.
Qed.

End AccountFacts.

Lemma reachable_accounts_witness :
  usernames_unique toy.db_items /\ ids_positive toy.db_items /\ owners_exist toy.db_items.
Proof.
  pose proof (reachable_accounts (B := toy.backend) toy.db_items toy_db_items_reachable) as H.
  exact (conj (proj1 H) (proj2 (proj2 H))).
Defined.

(** ** main.py: groups and items *)

Lemma filter_all {A : Type} (f : A -> bool) (l : list A) :
  (forall x, In x l -> f x = true) -> filter f l = l.
Proof.
  induction l as [|a l IH]; intros H; simpl; [reflexivity|].
  rewrite (H a (or_introl eq_refl)). f_equal. apply IH.
  intros x Hx. apply H. right. exact Hx.
Qed.

Lemma filter_none {A : Type} (f : A -> bool) (l : list A) :
  (forall x, In x l -> f x = false) -> filter f l = [].
Proof.
  induction l as [|a l IH]; intros H; simpl; [reflexivity|].
  rewrite (H a (or_introl eq_refl)). apply IH.
  intros x Hx. apply H. right. exact Hx.
Qed.

Lemma no_item_in_next_group (db : DB) (i : DebtItem.t) :
  item_owner_is_group_owner db -> In i (debt_items db) ->
  DebtItem.group_id i <> next_id (map DebtGroup.id (debt_groups db)).
Proof.
  intros Hown Hi. destruct (Hown i Hi) as [(g & Hg & Hid) _].
  pose proof (next_id_fresh (map DebtGroup.id (debt_groups db)) (DebtGroup.id g)
                (in_map _ _ _ Hg)). lia.
Qed.

Section GroupFacts.
Context {B : Backend}.

Lemma require_user_same_users (env : Env) (request : Request) (db db' : DB) :
  users db' = users db ->
  main.require_user env request db' = main.require_user env request db.
Proof.
  intros H. unfold main.require_user, main.get_current_user. rewrite H. reflexivity.
Qed.

(** X9. [create_group] appends one group, owned by the caller, named as
    asked and stamped with the current time, under an [id] no group had, and
    changes nothing else. When every stored item belongs to a stored group,
    the caller's next dashboard lists the new group with balance zero and
    the same total as before. *)
Theorem create_group_then_dashboard
    (env : Env) (request : Request) (name : string) (db : DB) (user : User.t) :
  main.require_user env request db = Return user ->
  exists g,
    main.create_group env request name db
    = (Return (RedirectResponse "/dashboard" 302 [] []),
       {| users := users db;
          debt_groups := debt_groups db ++ [g];
          debt_items := debt_items db |}) /\
    DebtGroup.user_id g = User.id user /\
    DebtGroup.name g = name /\
    DebtGroup.created_at g = utcnow env /\
    (forall g0, In g0 (debt_groups db) -> DebtGroup.id g0 <> DebtGroup.id g) /\
    (item_owner_is_group_owner db ->
     In (g, 0%float)
        (main.group_balances (snd (main.create_group env request name db)) user) /\
     main.total_balance (snd (main.create_group env request name db)) user
     = main.total_balance db user).
Proof.
  intros Hauth. unfold main.create_group, main.with_user. rewrite Hauth. cbn [snd].
  set (g := {| DebtGroup.id := next_id (map DebtGroup.id (debt_groups db));
               DebtGroup.user_id := User.id user;
               DebtGroup.name := name;
               DebtGroup.created_at := utcnow env |}).
  exists g. split; [reflexivity|]. repeat (split; [reflexivity|]). split.
  - intros g0 Hg0.
    pose proof (next_id_fresh (map DebtGroup.id (debt_groups db)) (DebtGroup.id g0)
                  (in_map _ _ _ Hg0)). simpl. lia.
  - intros Hown. split; [|reflexivity].
    apply (Permutation_in _ (Permutation_sym (group_balances_perm _ user))).
    apply in_map_iff. exists g. split.
    + f_equal. unfold items_of_group. cbn [debt_items].
      rewrite filter_none; [reflexivity|].
      intros i Hi. apply Z.eqb_neq. exact (no_item_in_next_group db i Hown Hi).
    + unfold groups_of_user. cbn [debt_groups]. apply filter_In. split.
      * apply in_or_app. right. left. reflexivity.
      * apply Z.eqb_refl.
Qed.

(** X10. For a group the caller owns, [group_detail] answers 200 with the
    group, with exactly the stored items that have the group's [id] and the
    caller's [id], newest first, and with the sum of their amounts taken in
    the order shown (zero for no items); the store is left as it is. *)
Theorem group_detail_lists_own_items
    (env : Env) (request : Request) (db : DB) (user : User.t)
    (group_id : Z) (group : DebtGroup.t) :
  main.require_user env request db = Return user ->
  query_group db group_id (User.id user) = Some group ->
  exists items balance,
    main.group_detail env request group_id db
    = (Return (TemplateResponse "group.html" (GroupContext user group items balance) 200),
       db) /\
    Permutation items
      (filter (fun i => (DebtItem.group_id i =? group_id)
                        && (DebtItem.user_id i =? User.id user)) (debt_items db)) /\
    StronglySorted (fun i1 i2 => DebtItem.created_at i2 <= DebtItem.created_at i1) items /\
    (forall i, In i items ->
               In i (debt_items db) /\ DebtItem.group_id i = group_id /\
               DebtItem.user_id i = User.id user) /\
    balance = py_sum (map DebtItem.amount items) /\
    (items = [] -> balance = 0%float).
Proof.
  intros Hauth Hq. unfold main.group_detail, main.with_user. rewrite Hauth, Hq.
  destruct (query_group_some _ _ _ _ Hq) as (_ & Hid & _). rewrite Hid.
  eexists. eexists. split; [reflexivity|].
  split; [apply order_by_desc_perm|].
  split; [apply (order_by_desc_sorted DebtItem.created_at)|].
  split; [|split; [reflexivity | intros ->; reflexivity]].
  intros i Hi. apply (Permutation_in _ (order_by_desc_perm _ _)) in Hi.
  apply filter_In in Hi as [Hin Hf]. apply andb_true_iff in Hf as [H1 H2].
  apply Z.eqb_eq in H1, H2. auto.
Qed.

(** X11. An item that [add_item] has just created can be deleted again by
    the same user under the [id] it was given (one more than the largest
    before), and the store is then exactly what it was before the item was
    added. *)
Theorem add_item_then_delete_item
    (env env' : Env) (request request' : Request) (db : DB) (user : User.t)
    (group_id : Z) (group : DebtGroup.t) (amount : float) (note : option string) :
  main.require_user env request db = Return user ->
  main.require_user env' request' db = Return user ->
  query_group db group_id (User.id user) = Some group ->
  fst (main.add_item env request group_id amount note db)
  = Return (RedirectResponse ("/groups/" ++ str_of_int group_id) 302 [] []) /\
  main.delete_item env' request' group_id (next_id (map DebtItem.id (debt_items db)))
    (snd (main.add_item env request group_id amount note db))
  = (Return (RedirectResponse ("/groups/" ++ str_of_int group_id) 302 [] []), db).
Proof.
  intros Hauth Hauth' Hq.
  destruct (query_group_some _ _ _ _ Hq) as (_ & Hid & _).
  unfold main.add_item, main.with_user. rewrite Hauth, Hq. cbn [fst snd].
  rewrite Hid. split; [reflexivity|].
  set (item := {| DebtItem.id := next_id (map DebtItem.id (debt_items db));
                  DebtItem.user_id := User.id user;
                  DebtItem.group_id := group_id;
                  DebtItem.amount := amount;
                  DebtItem.note := note;
                  DebtItem.created_at := utcnow env |}).
  assert (Hold : forall x, In x (debt_items db) ->
                           (DebtItem.id x =? DebtItem.id item) = false).
  { intros x Hx. apply Z.eqb_neq. simpl.
    pose proof (next_id_fresh (map DebtItem.id (debt_items db)) (DebtItem.id x)
                  (in_map _ _ _ Hx)). lia. }
  unfold main.delete_item, main.with_user.
  rewrite (require_user_same_users env' request' db) by reflexivity.
  rewrite Hauth'.
  unfold query_item. cbn [debt_items].
  rewrite first_filter_app_last with (x := item).
  - f_equal. unfold db_delete_item. cbn [users debt_groups debt_items].
    rewrite filter_app, filter_all.
    + simpl. rewrite Z.eqb_refl. simpl. rewrite app_nil_r. destruct db; reflexivity.
    + intros x Hx. rewrite (Hold x Hx). reflexivity.
  - intros y Hy. change (next_id (map DebtItem.id (debt_items db))) with (DebtItem.id item).
    rewrite (Hold y Hy). reflexivity.
  - simpl. now rewrite !Z.eqb_refl.
Qed.

End GroupFacts.

Lemma create_group_then_dashboard_witness :
  exists g,
    DebtGroup.name g = "new" /\
    In (g, 0%float)
       (main.group_balances (B := toy.backend)
          (snd (main.create_group (B := toy.backend) toy.env1 toy.as_alice "new" toy.db_items))
          toy.alice).
Proof.
  destruct (create_group_then_dashboard (B := toy.backend) toy.env1 toy.as_alice "new"
              toy.db_items toy.alice eq_refl)
    as (g & _ & _ & Hname & _ & _ & Hdash).
  exists g. split; [exact Hname|].
  exact (proj1 (Hdash (proj2 (reachable_invariant (B := toy.backend) toy.db_items
                                toy_db_items_reachable)))).
Defined.

Lemma group_detail_lists_own_items_witness :
  exists items balance,
    main.group_detail (B := toy.backend) toy.env0 toy.as_alice 1 toy.db_items
    = (Return (TemplateResponse "group.html"
                 (GroupContext toy.alice toy.flat items balance) 200), toy.db_items) /\
    balance = py_sum (map DebtItem.amount items).
Proof.
  destruct (group_detail_lists_own_items (B := toy.backend) toy.env0 toy.as_alice
              toy.db_items toy.alice 1 toy.flat eq_refl eq_refl)
    as (items & balance & Hresp & _ & _ & _ & Hbalance & _).
  exists items, balance. auto.
Defined.

Lemma add_item_then_delete_item_witness :
  main.delete_item (B := toy.backend) toy.env1 toy.as_alice 1 1
    (snd (main.add_item (B := toy.backend) toy.env0 toy.as_alice 1 10%float None
            toy.db_group))
  = (Return (RedirectResponse "/groups/1" 302 [] []), toy.db_group).
Proof.
  exact (proj2 (add_item_then_delete_item (B := toy.backend) toy.env0 toy.env1
                  toy.as_alice toy.as_alice toy.db_group toy.alice 1 toy.flat
                  10%float None eq_refl eq_refl eq_refl)).
Defined.

Section MoreGroupFacts.
Context {B : Backend}.

(** X12. When every stored item belongs to a stored group, a group that
    [create_group] has just created can be deleted again by the same user
    under the [id] it was given, and the store is then exactly what it was
    before: the cascade finds no item to take along. *)
Theorem create_group_then_delete_group
    (env env' : Env) (request request' : Request) (name : string)
    (db : DB) (user : User.t) :
  item_owner_is_group_owner db ->
  main.require_user env request db = Return user ->
  main.require_user env' request' db = Return user ->
  main.delete_group env' request' (next_id (map DebtGroup.id (debt_groups db)))
    (snd (main.create_group env request name db))
  = (Return (RedirectResponse "/dashboard" 302 [] []), db).
Proof.
  intros Hown Hauth Hauth'.
  unfold main.create_group, main.with_user. rewrite Hauth. cbn [snd].
  set (g := {| DebtGroup.id := next_id (map DebtGroup.id (debt_groups db));
               DebtGroup.user_id := User.id user;
               DebtGroup.name := name;
               DebtGroup.created_at := utcnow env |}).
  assert (Hold : forall x, In x (debt_groups db) ->
                           (DebtGroup.id x =? DebtGroup.id g) = false).
  { intros x Hx. apply Z.eqb_neq. simpl.
    pose proof (next_id_fresh (map DebtGroup.id (debt_groups db)) (DebtGroup.id x)
                  (in_map _ _ _ Hx)). lia. }
  unfold main.delete_group, main.with_user.
  rewrite (require_user_same_users env' request' db) by reflexivity.
  rewrite Hauth'.
  unfold query_group. cbn [debt_groups].
  rewrite first_filter_app_last with (x := g).
  - f_equal. unfold db_delete_group. cbn [users debt_groups debt_items].
    rewrite filter_app, filter_all by (intros x Hx; rewrite (Hold x Hx); reflexivity).
    rewrite (filter_none (fun i => DebtItem.group_id i =? DebtGroup.id g))
      by (intros i Hi; apply Z.eqb_neq; exact (no_item_in_next_group db i Hown Hi)).
    simpl. rewrite Z.eqb_refl. simpl. rewrite app_nil_r.
    rewrite filter_all by reflexivity. destruct db; reflexivity.
  - intros y Hy. change (next_id (map DebtGroup.id (debt_groups db))) with (DebtGroup.id g).
    rewrite (Hold y Hy). reflexivity.
  - simpl. now rewrite !Z.eqb_refl.
Qed.

(** X13. When the caller owns the item, [delete_item] removes the rows
    with that [id] from the items table and nothing else: users and groups
    stay, and an item is left exactly when it was there and has another
    [id]. Deleting the same [id] once more is a 404 for every caller. *)
Theorem delete_item_removes_that_item
    (env : Env) (request : Request) (db : DB) (user : User.t)
    (group_id item_id : Z) (item : DebtItem.t) :
  main.require_user env request db = Return user ->
  query_item db item_id group_id (User.id user) = Some item ->
  fst (main.delete_item env request group_id item_id db)
  = Return (RedirectResponse ("/groups/" ++ str_of_int group_id) 302 [] []) /\
  users (snd (main.delete_item env request group_id item_id db)) = users db /\
  debt_groups (snd (main.delete_item env request group_id item_id db)) = debt_groups db /\
  (forall i, In i (debt_items (snd (main.delete_item env request group_id item_id db))) <->
             In i (debt_items db) /\ DebtItem.id i <> item_id) /\
  (forall env' request' user' any_group,
      main.require_user env' request'
        (snd (main.delete_item env request group_id item_id db)) = Return user' ->
      main.delete_item env' request' any_group item_id
        (snd (main.delete_item env request group_id item_id db))
      = (Raise (HTTPException 404 []),
         snd (main.delete_item env request group_id item_id db))).
Proof.
  intros Hauth Hq.
  destruct (query_item_some _ _ _ _ _ Hq) as (_ & Hid & _).
  unfold main.delete_item at 1 2 3 4, main.with_user. rewrite Hauth, Hq. cbn [fst snd].
  assert (Hleft : forall i, In i (debt_items (db_delete_item db item)) <->
                            In i (debt_items db) /\ DebtItem.id i <> item_id).
  { intros i. simpl. rewrite filter_In, Hid, negb_true_iff, Z.eqb_neq. reflexivity. }
  split; [reflexivity|]. split; [reflexivity|]. split; [reflexivity|].
  split; [exact Hleft|].
  intros env' request' user' any_group.
  unfold main.delete_item, main.with_user. rewrite Hauth, Hq. cbn [snd].
  intros Hauth'. rewrite Hauth'.
  rewrite query_item_none; [reflexivity|].
  left. intros i Hi. exact (proj2 (proj1 (Hleft i) Hi)).
Qed.

End MoreGroupFacts.

Lemma create_group_then_delete_group_witness :
  main.delete_group (B := toy.backend) toy.env1 toy.as_alice 2
    (snd (main.create_group (B := toy.backend) toy.env0 toy.as_alice "new" toy.db_items))
  = (Return (RedirectResponse "/dashboard" 302 [] []), toy.db_items).
Proof.
  exact (create_group_then_delete_group (B := toy.backend) toy.env0 toy.env1
           toy.as_alice toy.as_alice "new" toy.db_items toy.alice
           (proj2 (reachable_invariant (B := toy.backend) toy.db_items toy_db_items_reachable))
           eq_refl eq_refl).
Defined.

Lemma delete_item_removes_that_item_witness :
  fst (main.delete_item (B := toy.backend) toy.env0 toy.as_alice 1 2 toy.db_items)
  = Return (RedirectResponse "/groups/1" 302 [] []) /\
  debt_groups (snd (main.delete_item (B := toy.backend) toy.env0 toy.as_alice 1 2
                      toy.db_items))
  = debt_groups toy.db_items.
Proof.
  pose proof (delete_item_removes_that_item (B := toy.backend) toy.env0 toy.as_alice
                toy.db_items toy.alice 1 2
                {| DebtItem.id := 2; DebtItem.user_id := 1; DebtItem.group_id := 1;
                   DebtItem.amount := (-3.5)%float; DebtItem.note := Some "taxi";
                   DebtItem.created_at := 5 |}
                eq_refl eq_refl) as H.
  exact (conj (proj1 H) (proj1 (proj2 (proj2 H)))).
Defined.

(** ** Isolation between users *)

Lemma filter_filter_keep {A : Type} (p q : A -> bool) (l : list A) :
  (forall x, In x l -> p x = true -> q x = true) ->
  filter p (filter q l) = filter p l.
Proof.
  induction l as [|a l IH]; intros H; simpl; [reflexivity|].
  assert (IH' : filter p (filter q l) = filter p l)
    by (apply IH; intros x Hx; apply H; right; exact Hx).
  destruct (q a) eqn:Hq; simpl.
  - rewrite IH'. reflexivity.
  - destruct (p a) eqn:Hp; [|exact IH'].
    rewrite (H a (or_introl eq_refl) Hp) in Hq. discriminate.
Qed.

Lemma same_rows_of_refl (db : DB) (owner : User.t) : same_rows_of db db owner.
Proof. repeat split. Qed.

Lemma same_rows_of_tables (db db' : DB) (owner : User.t) :
  debt_groups db' = debt_groups db -> debt_items db' = debt_items db ->
  same_rows_of db db' owner.
Proof.
  intros Hg Hi. unfold same_rows_of, groups_of_user, items_of_user, items_of_group.
  rewrite Hg, Hi. repeat split.
Qed.

Lemma view_of_same_rows {B : Backend} (db db' : DB) (owner : User.t) :
  same_rows_of db db' owner -> view_of db' owner = view_of db owner.
Proof.
  intros (Hg & Hi & Hgi). unfold view_of, main.group_balances, main.total_balance.
  fold (groups_of_user db owner) (groups_of_user db' owner).
  fold (items_of_user db owner) (items_of_user db' owner).
  rewrite Hg, Hi. f_equal. f_equal.
  apply map_ext_in. intros g Hin.
  fold (items_of_group db g) (items_of_group db' g).
  rewrite (Hgi g Hin). reflexivity.
Qed.

Lemma owned_group_id_differs (db : DB) (g g' : DebtGroup.t) :
  NoDup (map DebtGroup.id (debt_groups db)) ->
  In g (debt_groups db) -> In g' (debt_groups db) ->
  DebtGroup.user_id g <> DebtGroup.user_id g' ->
  DebtGroup.id g <> DebtGroup.id g'.
Proof.
  intros Hnd Hg Hg' Hne E. apply Hne.
  now rewrite (NoDup_map_In_eq DebtGroup.id (debt_groups db) g g' Hnd Hg Hg' E).
Qed.

Section IsolationFacts.
Context {B : Backend}.

Lemma create_group_same_rows
    (env : Env) (request : Request) (name : string) (db : DB) (owner : User.t) :
  (forall u, main.require_user env request db = Return u -> User.id u <> User.id owner) ->
  same_rows_of db (snd (main.create_group env request name db)) owner.
Proof.
  intros Hother. unfold main.create_group, main.with_user.
  destruct (main.require_user env request db) as [user|e]; [|apply same_rows_of_refl].
  specialize (Hother user eq_refl). cbn [snd]. split; [|split].
  - unfold groups_of_user. cbn [debt_groups]. rewrite filter_app. simpl.
    apply Z.eqb_neq in Hother. rewrite Hother. apply app_nil_r.
  - reflexivity.
  - reflexivity.
Qed.

Lemma add_item_same_rows
    (env : Env) (request : Request) (group_id : Z) (amount : float)
    (note : option string) (db : DB) (owner : User.t) :
  store_invariant db ->
  (forall u, main.require_user env request db = Return u -> User.id u <> User.id owner) ->
  same_rows_of db (snd (main.add_item env request group_id amount note db)) owner.
Proof.
  intros [(_ & Hnd & _) _] Hother. unfold main.add_item, main.with_user.
  destruct (main.require_user env request db) as [user|e]; [|apply same_rows_of_refl].
  specialize (Hother user eq_refl).
  destruct (query_group db group_id (User.id user)) as [group|] eqn:Hq;
    [|apply same_rows_of_refl].
  apply query_group_some in Hq as (Hgin & _ & Hguser). cbn [snd]. split; [|split].
  - reflexivity.
  - unfold items_of_user. cbn [debt_items]. rewrite filter_app. simpl.
    apply Z.eqb_neq in Hother. rewrite Hother. apply app_nil_r.
  - intros g Hg. unfold items_of_group. cbn [debt_items]. rewrite filter_app. simpl.
    apply filter_In in Hg as [Hg Howner]. apply Z.eqb_eq in Howner.
    assert (Hne : DebtGroup.id group <> DebtGroup.id g)
      by (apply (owned_group_id_differs db); auto; congruence).
    apply Z.eqb_neq in Hne. rewrite Hne. apply app_nil_r.
Qed.

Lemma delete_item_same_rows
    (env : Env) (request : Request) (group_id item_id : Z) (db : DB) (owner : User.t) :
  store_invariant db ->
  (forall u, main.require_user env request db = Return u -> User.id u <> User.id owner) ->
  same_rows_of db (snd (main.delete_item env request group_id item_id db)) owner.
Proof.
  intros [(_ & _ & Hnd) Hown] Hother. unfold main.delete_item, main.with_user.
  destruct (main.require_user env request db) as [user|e]; [|apply same_rows_of_refl].
  specialize (Hother user eq_refl).
  destruct (query_item db item_id group_id (User.id user)) as [item|] eqn:Hq;
    [|apply same_rows_of_refl].
  apply query_item_some in Hq as (Hin & _ & _ & Huser). cbn [snd].
  assert (Hsame : forall x, In x (debt_items db) ->
                            DebtItem.id x = DebtItem.id item -> x = item)
    by (intros x Hx E; exact (NoDup_map_In_eq DebtItem.id _ x item Hnd Hx Hin E)).
  split; [reflexivity|]. split.
  - unfold items_of_user. cbn [debt_items]. apply filter_filter_keep.
    intros x Hx Hp. apply negb_true_iff, Z.eqb_neq. intros E.
    apply Z.eqb_eq in Hp. rewrite (Hsame x Hx E) in Hp. congruence.
  - intros g Hg. unfold items_of_group. cbn [debt_items]. apply filter_filter_keep.
    intros x Hx Hp. apply negb_true_iff, Z.eqb_neq. intros E.
    apply Z.eqb_eq in Hp. rewrite (Hsame x Hx E) in Hp.
    apply filter_In in Hg as [Hg Howner]. apply Z.eqb_eq in Howner.
    pose proof (proj2 (Hown item Hin) g Hg (eq_sym Hp)). congruence.
Qed.

Lemma delete_group_same_rows
    (env : Env) (request : Request) (group_id : Z) (db : DB) (owner : User.t) :
  store_invariant db ->
  (forall u, main.require_user env request db = Return u -> User.id u <> User.id owner) ->
  same_rows_of db (snd (main.delete_group env request group_id db)) owner.
Proof.
  intros [(_ & Hndg & Hndi) Hown] Hother. unfold main.delete_group, main.with_user.
  destruct (main.require_user env request db) as [user|e]; [|apply same_rows_of_refl].
  specialize (Hother user eq_refl).
  destruct (query_group db group_id (User.id user)) as [group|] eqn:Hq;
    [|apply same_rows_of_refl].
  apply query_group_some in Hq as (Hgin & _ & Hguser). cbn [snd].
  assert (Hcascade : forall x, In x (debt_items db) ->
            existsb (Z.eqb (DebtItem.id x))
              (map DebtItem.id
                 (filter (fun i => DebtItem.group_id i =? DebtGroup.id group) (debt_items db)))
            = true ->
            DebtItem.group_id x = DebtGroup.id group).
  { intros x Hx Hex. apply existsb_exists in Hex as (n & Hn & E).
    apply Z.eqb_eq in E. apply in_map_iff in Hn as (y & Hy & Hyin).
    apply filter_In in Hyin as [Hyin Hygroup]. apply Z.eqb_eq in Hygroup.
    assert (x = y) by (apply (NoDup_map_In_eq DebtItem.id (debt_items db)); auto; congruence).
    congruence. }
  split; [|split].
  - unfold groups_of_user. cbn [debt_groups]. apply filter_filter_keep.
    intros g Hg Hp. apply negb_true_iff, Z.eqb_neq. apply Z.eqb_eq in Hp.
    apply (owned_group_id_differs db); auto. congruence.
  - unfold items_of_user. cbn [debt_items]. apply filter_filter_keep.
    intros x Hx Hp. apply negb_true_iff. apply Z.eqb_eq in Hp.
    destruct (existsb _ _) eqn:Hex; [|reflexivity]. exfalso.
    pose proof (Hcascade x Hx Hex) as Hxg.
    pose proof (proj2 (Hown x Hx) group Hgin (eq_sym Hxg)). congruence.
  - intros g Hg. unfold items_of_group. cbn [debt_items]. apply filter_filter_keep.
    intros x Hx Hp. apply negb_true_iff. apply Z.eqb_eq in Hp.
    destruct (existsb _ _) eqn:Hex; [|reflexivity]. exfalso.
    pose proof (Hcascade x Hx Hex) as Hxg.
    apply filter_In in Hg as [Hg Howner]. apply Z.eqb_eq in Howner.
    apply (owned_group_id_differs db g group Hndg Hg Hgin); congruence.
Qed.

(** X14. In a store with unique primary keys in which every item is owned
    by the owner of its group, a request that is not resolved to a given
    user - it carries no valid session, or the session of somebody else -
    changes nothing of that user's, whatever route it calls: the user's
    groups, the user's items and the items of those groups stay as they were,
    and so do the rows and the total of the user's dashboard. *)
Theorem other_requests_leave_rows
    (env : Env) (request : Request) (call : main.Call) (db : DB) (owner : User.t) :
  store_invariant db ->
  (forall u, main.require_user env request db = Return u -> User.id u <> User.id owner) ->
  same_rows_of db (snd (main.handle env request call db)) owner /\
  view_of (snd (main.handle env request call db)) owner = view_of db owner.
Proof.
  intros Hinv Hother.
  assert (Hsame : same_rows_of db (snd (main.handle env request call db)) owner).
  { destruct call; cbn [main.handle snd]; try apply same_rows_of_refl.
    - unfold main.register. destruct (first _); [apply same_rows_of_refl|].
      destruct (auth.hash_password _ _) as [digest|e]; [|apply same_rows_of_refl].
      apply same_rows_of_tables; reflexivity.
    - unfold main.login. destruct (first _) as [user|]; [|apply same_rows_of_refl].
      destruct (auth.verify_password _ _) as [[|]|e]; apply same_rows_of_refl.
    - unfold main.dashboard, main.with_user.
      destruct (main.require_user env request db); apply same_rows_of_refl.
    - now apply create_group_same_rows.
    - unfold main.group_detail, main.with_user.
      destruct (main.require_user env request db) as [user|e]; [|apply same_rows_of_refl].
      destruct (query_group _ _ _); apply same_rows_of_refl.
    - now apply add_item_same_rows.
    - now apply delete_item_same_rows.
    - now apply delete_group_same_rows. }
  split; [exact Hsame | now apply view_of_same_rows].
Qed.

End IsolationFacts.

Lemma other_requests_leave_rows_witness :
  view_of (B := toy.backend)
    (snd (main.handle (B := toy.backend) toy.env1 toy.as_bob (main.DeleteGroup 1)
            toy.db_items)) toy.alice
  = view_of (B := toy.backend) toy.db_items toy.alice.
Proof.
  assert (Hbob : forall u, main.require_user (B := toy.backend) toy.env1 toy.as_bob toy.db_items
                           = Return u -> User.id u <> User.id toy.alice).
  { intros u H. change (Return toy.bob = Return u) in H. injection H as <-. discriminate. }
  exact (proj2 (other_requests_leave_rows (B := toy.backend) toy.env1 toy.as_bob
                  (main.DeleteGroup 1) toy.db_items toy.alice
                  (reachable_invariant (B := toy.backend) toy.db_items toy_db_items_reachable)
                  Hbob)).
Defined.

(** ** What a request can and cannot change *)

Section FrameFacts.
Context {B : Backend}.

(** X15. With unique item [id]s, the cascade of [delete_group] takes the
    items of the deleted group and no others: afterwards an item is stored
    exactly when it was stored before and belongs to another group, a group
    is stored exactly when it was stored before and has another [id], and
    the users table is the same. *)
Theorem delete_group_takes_only_its_items
    (env : Env) (request : Request) (db : DB) (user : User.t)
    (group_id : Z) (group : DebtGroup.t) :
  NoDup (map DebtItem.id (debt_items db)) ->
  main.require_user env request db = Return user ->
  query_group db group_id (User.id user) = Some group ->
  users (snd (main.delete_group env request group_id db)) = users db /\
  (forall g, In g (debt_groups (snd (main.delete_group env request group_id db))) <->
             In g (debt_groups db) /\ DebtGroup.id g <> group_id) /\
  (forall i, In i (debt_items (snd (main.delete_group env request group_id db))) <->
             In i (debt_items db) /\ DebtItem.group_id i <> group_id).
Proof.
  intros Hnd Hauth Hq.
  destruct (query_group_some _ _ _ _ Hq) as (_ & Hid & _).
  unfold main.delete_group, main.with_user. rewrite Hauth, Hq. cbn [snd].
  split; [reflexivity|]. split.
  - intros g. simpl. rewrite filter_In, Hid, negb_true_iff, Z.eqb_neq. reflexivity.
  - intros i. split.
    + intros Hi. apply db_delete_group_items in Hi. rewrite Hid in Hi. exact Hi.
    + intros [Hi Hne]. simpl. apply filter_In. split; [exact Hi|].
      apply negb_true_iff. destruct (existsb _ _) eqn:Hex; [|reflexivity]. exfalso.
      apply existsb_exists in Hex as (n & Hn & E). apply Z.eqb_eq in E.
      apply in_map_iff in Hn as (y & Hy & Hyin).
      apply filter_In in Hyin as [Hyin Hygroup]. apply Z.eqb_eq in Hygroup.
      assert (i = y)
        by (apply (NoDup_map_In_eq DebtItem.id (debt_items db)); auto; congruence).
      congruence.
Qed.

(** X16. The store changes only with a successful write: a request that
    ends in an exception (401, 404, the redirect to the login page, an error
    of the password hasher) or in a rendered page (a form with a message, the
    dashboard, a group) leaves the store exactly as it was, and the routes
    other than register, create group, add item, delete item and delete group
    never change it. *)
Theorem store_changes_only_on_success
    (env : Env) (request : Request) (call : main.Call) (db : DB) :
  (forall e, fst (main.handle env request call db) = Raise e ->
             snd (main.handle env request call db) = db) /\
  (forall name context status_code,
      fst (main.handle env request call db)
      = Return (TemplateResponse name context status_code) ->
      snd (main.handle env request call db) = db) /\
  (mutates call = false -> snd (main.handle env request call db) = db).
Proof.
  assert (Hcases :
            snd (main.handle env request call db) = db \/
            (mutates call = true /\
             exists url cookies,
               fst (main.handle env request call db)
               = Return (RedirectResponse url 302 cookies []))).
  { destruct call; cbn [main.handle]; try (left; reflexivity).
    - unfold main.register. destruct (first _); [left; reflexivity|].
      destruct (auth.hash_password _ _) as [digest|e]; [|left; reflexivity].
      right. split; [reflexivity|]. eexists. eexists. reflexivity.
    - left. unfold main.login. destruct (first _) as [user|]; [|reflexivity].
      destruct (auth.verify_password _ _) as [[|]|e]; reflexivity.
    - left. unfold main.dashboard, main.with_user.
      destruct (main.require_user env request db); reflexivity.
    - unfold main.create_group, main.with_user.
      destruct (main.require_user env request db); [|left; reflexivity].
      right. split; [reflexivity|]. eexists. eexists. reflexivity.
    - left. unfold main.group_detail, main.with_user.
      destruct (main.require_user env request db) as [user|e]; [|reflexivity].
      destruct (query_group _ _ _); reflexivity.
    - unfold main.add_item, main.with_user.
      destruct (main.require_user env request db) as [user|e]; [|left; reflexivity].
      destruct (query_group _ _ _); [|left; reflexivity].
      right. split; [reflexivity|]. eexists. eexists. reflexivity.
    - unfold main.delete_item, main.with_user.
      destruct (main.require_user env request db) as [user|e]; [|left; reflexivity].
      destruct (query_item _ _ _ _); [|left; reflexivity].
      right. split; [reflexivity|]. eexists. eexists. reflexivity.
    - unfold main.delete_group, main.with_user.
      destruct (main.require_user env request db) as [user|e]; [|left; reflexivity].
      destruct (query_group _ _ _); [|left; reflexivity].
      right. split; [reflexivity|]. eexists. eexists. reflexivity. }
  destruct Hcases as [Hsame | (Hmut & url & cookies & Hresp)].
  - repeat split; intros; exact Hsame.
  - rewrite Hresp, Hmut. repeat split; intros; discriminate.
Qed.

End FrameFacts.

Lemma delete_group_takes_only_its_items_witness :
  users (snd (main.delete_group (B := toy.backend) toy.env1 toy.as_bob 2 toy.db_two_groups))
  = users toy.db_two_groups /\
  (forall i,
      In i (debt_items (snd (main.delete_group (B := toy.backend) toy.env1 toy.as_bob 2
                               toy.db_two_groups))) <->
      In i (debt_items toy.db_two_groups) /\ DebtItem.group_id i <> 2).
Proof.
  assert (Hnd : NoDup (map DebtItem.id (debt_items toy.db_two_groups))).
  { cbv. repeat constructor; simpl; intros H; repeat destruct H as [H | H];
      try discriminate H; exact H. }
  pose proof (delete_group_takes_only_its_items (B := toy.backend) toy.env1 toy.as_bob
                toy.db_two_groups toy.bob 2
                {| DebtGroup.id := 2; DebtGroup.user_id := 2;
                   DebtGroup.name := "trip"; DebtGroup.created_at := 9 |}
                Hnd eq_refl eq_refl) as H.
  exact (conj (proj1 H) (proj2 (proj2 H))).
Defined.

Lemma store_changes_only_on_success_witness :
  snd (main.handle (B := toy.backend) toy.env1 toy.as_bob (main.AddItem 1 5%float None)
         toy.db_items)
  = toy.db_items.
Proof.
  exact (proj1 (store_changes_only_on_success (B := toy.backend) toy.env1 toy.as_bob
                  (main.AddItem 1 5%float None) toy.db_items)
               (HTTPException 404 []) eq_refl).
Defined.
